(** * PyPacker Lite: the build thread and the packer window

    A shallow embedding of [pypacker1.0.1.py]: the command line that
    [BuildThread.run] hands to PyInstaller, the signals it emits while the
    subprocess runs, and the handlers of [PyPackerWindow] that select a
    script and start a build. *)

From Stdlib Require Import String Ascii List NArith ZArith Bool Lia.
Import ListNotations.

(** ** Python strings

    A Python [str] is a sequence of Unicode code points.  Literals are
    written as in the source file, which is UTF-8, and decoded by [u]. *)

Module PyStr.

Definition char := N.
Definition str := list char.

Definition str_eq_dec : forall a b : str, {a = b} + {a <> b} :=
  list_eq_dec N.eq_dec.

Definition str_eqb (a b : str) : bool :=
  if str_eq_dec a b then true else false.

(** Decoding of a UTF-8 byte sequence (1 to 4 bytes per code point). *)
Fixpoint utf8_decode (bs : list N) : str :=
  let cont b := N.land b 63 in
  match bs with
  | [] => []
  | b0 :: r0 =>
    if (b0 <? 128)%N then b0 :: utf8_decode r0
    else match r0 with
    | [] => [b0]
    | b1 :: r1 =>
      if (b0 <? 224)%N then
        (N.shiftl (N.land b0 31) 6 + cont b1)%N :: utf8_decode r1
      else match r1 with
      | [] => [b0; b1]
      | b2 :: r2 =>
        if (b0 <? 240)%N then
          (N.shiftl (N.land b0 15) 12 + N.shiftl (cont b1) 6 + cont b2)%N
            :: utf8_decode r2
        else match r2 with
        | [] => [b0; b1; b2]
        | b3 :: r3 =>
          (N.shiftl (N.land b0 7) 18 + N.shiftl (cont b1) 12
             + N.shiftl (cont b2) 6 + cont b3)%N :: utf8_decode r3
        end
      end
    end
  end.

(** A literal of the source file. *)
Definition u (s : string) : str :=
  utf8_decode (map N_of_ascii (list_ascii_of_string s)).

(** [bool(s)]: only the empty string is falsy. *)
Definition truthy (s : str) : bool :=
  match s with [] => false | _ :: _ => true end.

(** [s.endswith(suffix)] *)
Definition endswith (s suffix : str) : bool :=
  (length suffix <=? length s)%nat
  && str_eqb (skipn (length s - length suffix) s) suffix.

(** [str.isspace] on one code point, as CPython's [_PyUnicode_IsWhitespace]. *)
Definition isspace (c : char) : bool :=
  ((9 <=? c) && (c <=? 13) || (28 <=? c) && (c <=? 32)
   || (c =? 133) || (c =? 160) || (c =? 5760)
   || (8192 <=? c) && (c <=? 8202)
   || (c =? 8232) || (c =? 8233) || (c =? 8239) || (c =? 8287)
   || (c =? 12288))%N.

(** [dropwhile p s] removes the longest prefix of [s] whose characters
    all satisfy [p]. *)
Fixpoint dropwhile (p : char -> bool) (s : str) : str :=
  match s with
  | [] => []
  | c :: r => if p c then dropwhile p r else s
  end.

(** [s.rstrip()]: trailing whitespace removed. *)
Definition rstrip (s : str) : str :=
  rev (dropwhile isspace (rev s)).

(** [s.strip(chars)]: leading and trailing characters of [chars] removed. *)
Definition strip (chars s : str) : str :=
  let drop c := existsb (N.eqb c) chars in
  rev (dropwhile drop (rev (dropwhile drop s))).

(** [sep.join(parts)] *)
Fixpoint join (sep : str) (parts : list str) : str :=
  match parts with
  | [] => []
  | [p] => p
  | p :: ps => p ++ sep ++ join sep ps
  end.

(** [s * n] *)
Fixpoint times (s : str) (n : nat) : str :=
  match n with
  | O => []
  | S k => s ++ times s k
  end.

End PyStr.
Import PyStr.

(** ** The world outside the program

    What the program obtains from the interpreter, the file system and the
    operating system: [sys.executable], the [os.path] functions it calls and
    [subprocess.Popen].  They are not part of the repository, so every
    definition below takes them as an [Env]. *)

(** A raised [Exception]; [message e] is [str(e)]. *)
Record Exception := { message : str }.

(** The [stdout=] and [stderr=] arguments of [Popen]. *)
Inductive Redirect := INHERIT | PIPE | STDOUT.

Record PopenArgs := {
  args : list str;
  stdout_arg : Redirect;
  stderr_arg : Redirect;
  text : bool;
  cwd : str;
}.

(** A spawned process as the build thread sees it: the lines its pipe
    delivers, an exception the pipe may raise after them, and the return
    code [wait] leaves in [returncode]. *)
Record Process := {
  stdout : list str;
  stdout_raises : option Exception;
  returncode : Z;
}.

Record Env := {
  sys_executable : str;
  sys_platform : str;
  sys_argv : list str;
  PyInstaller_importable : bool;
  shutil_which : str -> option str;
  os_path_exists : str -> bool;
  os_path_abspath : str -> str;
  os_path_dirname : str -> str;
  os_path_join : str -> str -> str;
  os_startfile : str -> option Exception;
  subprocess_run : list str -> Exception + Z;
  Popen : PopenArgs -> Exception + Process;
}.

(** ** Signals and the thread's computations *)

Inductive Signal :=
| log_signal (msg : str)
| finished_signal (success : bool).

(** A computation of the thread emits signals, and then returns a value
    or raises. *)
Module Thread.

Definition M (A : Type) : Type := (list Signal * (Exception + A))%type.

Definition ret {A} (a : A) : M A := ([], inr a).

Definition raise {A} (e : Exception) : M A := ([], inl e).

Definition bind {A B} (c : M A) (k : A -> M B) : M B :=
  match c with
  | (out, inl e) => (out, inl e)
  | (out, inr a) => let (out', r) := k a in (out ++ out', r)
  end.

Definition emit (s : Signal) : M unit := ([s], inr tt).

(** [try: body / except Exception as e: handler e] *)
Definition try_except {A} (body : M A) (handler : Exception -> M A) : M A :=
  match body with
  | (out, inl e) => let (out', r) := handler e in (out ++ out', r)
  | (out, inr a) => (out, inr a)
  end.

(** The result of a call that returns or raises. *)
Definition call {A} (r : Exception + A) : M A := ([], r).

(** [for x in xs: body x] *)
Fixpoint for_each {A} (xs : list A) (body : A -> M unit) : M unit :=
  match xs with
  | [] => ret tt
  | x :: r => bind (body x) (fun _ => for_each r body)
  end.

(** The signals a computation has emitted. *)
Definition emitted {A} (c : M A) : list Signal := fst c.

End Thread.

Declare Scope thread_scope.
Delimit Scope thread_scope with thread.
Notation "x <- c ;; k" := (Thread.bind c (fun x => k))
  (at level 61, c at next level, right associativity) : thread_scope.
Notation "c ;; k" := (Thread.bind c (fun _ => k))
  (at level 61, right associativity) : thread_scope.

(** ** BuildThread *)

Record BuildThread := {
  script_path : str;
  output_folder : str;
  onefile : bool;
  noconsole : bool;
  icon_path : option str;
}.

(** [cmd.append(x)] and [cmd.extend(xs)] *)
Definition append (cmd : list str) (x : str) : list str := cmd ++ [x].
Definition extend (cmd xs : list str) : list str := cmd ++ xs.

(** The list [cmd] that [run] builds before it spawns the subprocess. *)
Definition command (env : Env) (self : BuildThread) : list str :=
  let cmd := [sys_executable env; u "-m"; u "PyInstaller";
              u "--distpath"; output_folder self;
              u "--noconfirm"] in
  let cmd := if onefile self then append cmd (u "-F")
             else append cmd (u "-D") in
  let cmd := if noconsole self then append cmd (u "-w") else cmd in
  let cmd := match icon_path self with
             | Some p => if truthy p && os_path_exists env p
                         then extend cmd [u "--icon"; p] else cmd
             | None => cmd
             end in
  append cmd (script_path self).

(** Iterating [process.stdout]: the lines, then the pipe's exception. *)
Definition iter_stdout (process : Process) (body : str -> Thread.M unit)
  : Thread.M unit :=
  (Thread.for_each (stdout process) body ;;
   match stdout_raises process with
   | Some e => Thread.raise e
   | None => Thread.ret tt
   end)%thread.

(** The arguments of the [Popen] call of [run]. *)
Definition popen_args (env : Env) (self : BuildThread) : PopenArgs :=
  let script_dir :=
    os_path_dirname env (os_path_abspath env (script_path self)) in
  {| args := command env self;
     stdout_arg := PIPE;
     stderr_arg := STDOUT;
     text := true;
     cwd := script_dir |}.

Definition run_body (env : Env) (self : BuildThread) : Thread.M unit :=
  let cmd := command env self in
  (Thread.emit (log_signal (u "执行命令: " ++ join (u " ") cmd)) ;;
   Thread.emit (log_signal (times (u "-") 50)) ;;
   Thread.try_except
     (process <- Thread.call (Popen env (popen_args env self)) ;;
      iter_stdout process
        (fun line => Thread.emit (log_signal (rstrip line))) ;;
      if (returncode process =? 0)%Z then
        Thread.emit (log_signal (times (u "-") 50)) ;;
        Thread.emit (log_signal (u "打包成功!")) ;;
        Thread.emit (finished_signal true)
      else
        Thread.emit (log_signal (times (u "-") 50)) ;;
        Thread.emit (log_signal (u "打包失败")) ;;
        Thread.emit (finished_signal false))
     (fun e =>
        Thread.emit (log_signal (u "执行异常: " ++ message e)) ;;
        Thread.emit (finished_signal false)))%thread.

(** [BuildThread.run]: the signals it emits, in order. *)
Definition run (env : Env) (self : BuildThread) : list Signal :=
  Thread.emitted (run_body env self).

(** ** The run, action by action

    The same [run], with what the thread does to the subprocess recorded
    among the signals it emits, in the order in which it happens: the
    call of [Popen], every line that the iteration over [process.stdout]
    hands to the loop body, the end of the output or the exception that
    ends the iteration, and the return of [process.wait]. *)

Inductive Action :=
| Emitted (s : Signal)
| Spawn (a : PopenArgs)
| ReadLine (line : str)
| ReadEnd
| ReadRaised (e : Exception)
| Waited.

Module Traced.

Definition M (A : Type) : Type := (list Action * (Exception + A))%type.

Definition ret {A} (a : A) : M A := ([], inr a).

Definition raise {A} (e : Exception) : M A := ([], inl e).

Definition bind {A B} (c : M A) (k : A -> M B) : M B :=
  match c with
  | (out, inl e) => (out, inl e)
  | (out, inr a) => let (out', r) := k a in (out ++ out', r)
  end.

Definition act (a : Action) : M unit := ([a], inr tt).

Definition emit (s : Signal) : M unit := act (Emitted s).

Definition try_except {A} (body : M A) (handler : Exception -> M A) : M A :=
  match body with
  | (out, inl e) => let (out', r) := handler e in (out ++ out', r)
  | (out, inr a) => (out, inr a)
  end.

(** [subprocess.Popen(...)]: the call, then its result. *)
Definition popen (env : Env) (a : PopenArgs) : M Process :=
  bind (act (Spawn a)) (fun _ => ([], Popen env a)).

(** [for line in lines: body line], each line being read from the pipe
    when the loop comes to it. *)
Fixpoint for_each_line (lines : list str) (body : str -> M unit) : M unit :=
  match lines with
  | [] => ret tt
  | line :: rest =>
    bind (act (ReadLine line))
         (fun _ => bind (body line) (fun _ => for_each_line rest body))
  end.

End Traced.

Declare Scope traced_scope.
Delimit Scope traced_scope with traced.
Notation "x <- c ;; k" := (Traced.bind c (fun x => k))
  (at level 61, c at next level, right associativity) : traced_scope.
Notation "c ;; k" := (Traced.bind c (fun _ => k))
  (at level 61, right associativity) : traced_scope.

(** Iterating [process.stdout]: the lines one by one, then the end of
    the output or the pipe's exception. *)
Definition iter_stdout_traced (process : Process)
    (body : str -> Traced.M unit) : Traced.M unit :=
  (Traced.for_each_line (stdout process) body ;;
   match stdout_raises process with
   | Some e => Traced.act (ReadRaised e) ;; Traced.raise e
   | None => Traced.act ReadEnd
   end)%traced.

Definition run_trace_body (env : Env) (self : BuildThread)
  : Traced.M unit :=
  let cmd := command env self in
  (Traced.emit (log_signal (u "执行命令: " ++ join (u " ") cmd)) ;;
   Traced.emit (log_signal (times (u "-") 50)) ;;
   Traced.try_except
     (process <- Traced.popen env (popen_args env self) ;;
      iter_stdout_traced process
        (fun line => Traced.emit (log_signal (rstrip line))) ;;
      Traced.act Waited ;;
      if (returncode process =? 0)%Z then
        Traced.emit (log_signal (times (u "-") 50)) ;;
        Traced.emit (log_signal (u "打包成功!")) ;;
        Traced.emit (finished_signal true)
      else
        Traced.emit (log_signal (times (u "-") 50)) ;;
        Traced.emit (log_signal (u "打包失败")) ;;
        Traced.emit (finished_signal false))
     (fun e =>
        Traced.emit (log_signal (u "执行异常: " ++ message e)) ;;
        Traced.emit (finished_signal false)))%traced.

(** [BuildThread.run]: its actions, in order. *)
Definition run_trace (env : Env) (self : BuildThread) : list Action :=
  fst (run_trace_body env self).

(** The signals among actions. *)
Definition signals (tr : list Action) : list Signal :=
  flat_map (fun a => match a with Emitted s => [s] | _ => [] end) tr.

(** ** PyPackerWindow *)

Inductive BoxKind := Warning | Critical | Information | Question.

(** A [QMessageBox] that was shown. *)
Record MessageBox := { kind : BoxKind; title : str; body : str }.

(** A thread that was started: a [BuildThread], or the
    [threading.Thread] of [install_pyinstaller]. *)
Inductive Started :=
| Build (t : BuildThread)
| InstallTask.

Record Button := { enabled : bool; hidden : bool }.

(** The attributes and widgets of the window that the handlers read or
    write.  [pack_btn] is the enabled state of the pack button,
    [install_btn] exists only when PyInstaller was missing at start-up,
    [log_text] holds the appended messages, and [shown], [started] and
    [opened] record, oldest first, the message boxes shown, the threads
    started and the folders opened. *)
Record PyPackerWindow := {
  pyinstaller_available : bool;
  current_script : option str;
  build_thread : option BuildThread;
  path_edit : str;
  icon_edit : str;
  onefile_check : bool;
  noconsole_check : bool;
  pack_btn : bool;
  install_btn : option Button;
  progress_visible : bool;
  progress_range : Z * Z;
  log_text : list str;
  shown : list MessageBox;
  started : list Started;
  opened : list str;
}.

Section Setters.
Variable self : PyPackerWindow.

Definition set_pyinstaller_available (v : bool) : PyPackerWindow :=
  {| pyinstaller_available := v;
     current_script := current_script self;
     build_thread := build_thread self;
     path_edit := path_edit self;
     icon_edit := icon_edit self;
     onefile_check := onefile_check self;
     noconsole_check := noconsole_check self;
     pack_btn := pack_btn self;
     install_btn := install_btn self;
     progress_visible := progress_visible self;
     progress_range := progress_range self;
     log_text := log_text self;
     shown := shown self;
     started := started self;
     opened := opened self |}.

Definition set_current_script (v : option str) : PyPackerWindow :=
  {| pyinstaller_available := pyinstaller_available self;
     current_script := v;
     build_thread := build_thread self;
     path_edit := path_edit self;
     icon_edit := icon_edit self;
     onefile_check := onefile_check self;
     noconsole_check := noconsole_check self;
     pack_btn := pack_btn self;
     install_btn := install_btn self;
     progress_visible := progress_visible self;
     progress_range := progress_range self;
     log_text := log_text self;
     shown := shown self;
     started := started self;
     opened := opened self |}.

Definition set_build_thread (v : option BuildThread) : PyPackerWindow :=
  {| pyinstaller_available := pyinstaller_available self;
     current_script := current_script self;
     build_thread := v;
     path_edit := path_edit self;
     icon_edit := icon_edit self;
     onefile_check := onefile_check self;
     noconsole_check := noconsole_check self;
     pack_btn := pack_btn self;
     install_btn := install_btn self;
     progress_visible := progress_visible self;
     progress_range := progress_range self;
     log_text := log_text self;
     shown := shown self;
     started := started self;
     opened := opened self |}.

Definition set_path_edit (v : str) : PyPackerWindow :=
  {| pyinstaller_available := pyinstaller_available self;
     current_script := current_script self;
     build_thread := build_thread self;
     path_edit := v;
     icon_edit := icon_edit self;
     onefile_check := onefile_check self;
     noconsole_check := noconsole_check self;
     pack_btn := pack_btn self;
     install_btn := install_btn self;
     progress_visible := progress_visible self;
     progress_range := progress_range self;
     log_text := log_text self;
     shown := shown self;
     started := started self;
     opened := opened self |}.

Definition set_icon_edit (v : str) : PyPackerWindow :=
  {| pyinstaller_available := pyinstaller_available self;
     current_script := current_script self;
     build_thread := build_thread self;
     path_edit := path_edit self;
     icon_edit := v;
     onefile_check := onefile_check self;
     noconsole_check := noconsole_check self;
     pack_btn := pack_btn self;
     install_btn := install_btn self;
     progress_visible := progress_visible self;
     progress_range := progress_range self;
     log_text := log_text self;
     shown := shown self;
     started := started self;
     opened := opened self |}.

Definition set_onefile_check (v : bool) : PyPackerWindow :=
  {| pyinstaller_available := pyinstaller_available self;
     current_script := current_script self;
     build_thread := build_thread self;
     path_edit := path_edit self;
     icon_edit := icon_edit self;
     onefile_check := v;
     noconsole_check := noconsole_check self;
     pack_btn := pack_btn self;
     install_btn := install_btn self;
     progress_visible := progress_visible self;
     progress_range := progress_range self;
     log_text := log_text self;
     shown := shown self;
     started := started self;
     opened := opened self |}.

Definition set_noconsole_check (v : bool) : PyPackerWindow :=
  {| pyinstaller_available := pyinstaller_available self;
     current_script := current_script self;
     build_thread := build_thread self;
     path_edit := path_edit self;
     icon_edit := icon_edit self;
     onefile_check := onefile_check self;
     noconsole_check := v;
     pack_btn := pack_btn self;
     install_btn := install_btn self;
     progress_visible := progress_visible self;
     progress_range := progress_range self;
     log_text := log_text self;
     shown := shown self;
     started := started self;
     opened := opened self |}.

Definition set_pack_btn (v : bool) : PyPackerWindow :=
  {| pyinstaller_available := pyinstaller_available self;
     current_script := current_script self;
     build_thread := build_thread self;
     path_edit := path_edit self;
     icon_edit := icon_edit self;
     onefile_check := onefile_check self;
     noconsole_check := noconsole_check self;
     pack_btn := v;
     install_btn := install_btn self;
     progress_visible := progress_visible self;
     progress_range := progress_range self;
     log_text := log_text self;
     shown := shown self;
     started := started self;
     opened := opened self |}.

Definition set_install_btn (v : option Button) : PyPackerWindow :=
  {| pyinstaller_available := pyinstaller_available self;
     current_script := current_script self;
     build_thread := build_thread self;
     path_edit := path_edit self;
     icon_edit := icon_edit self;
     onefile_check := onefile_check self;
     noconsole_check := noconsole_check self;
     pack_btn := pack_btn self;
     install_btn := v;
     progress_visible := progress_visible self;
     progress_range := progress_range self;
     log_text := log_text self;
     shown := shown self;
     started := started self;
     opened := opened self |}.

Definition set_progress_visible (v : bool) : PyPackerWindow :=
  {| pyinstaller_available := pyinstaller_available self;
     current_script := current_script self;
     build_thread := build_thread self;
     path_edit := path_edit self;
     icon_edit := icon_edit self;
     onefile_check := onefile_check self;
     noconsole_check := noconsole_check self;
     pack_btn := pack_btn self;
     install_btn := install_btn self;
     progress_visible := v;
     progress_range := progress_range self;
     log_text := log_text self;
     shown := shown self;
     started := started self;
     opened := opened self |}.

Definition set_progress_range (v : Z * Z) : PyPackerWindow :=
  {| pyinstaller_available := pyinstaller_available self;
     current_script := current_script self;
     build_thread := build_thread self;
     path_edit := path_edit self;
     icon_edit := icon_edit self;
     onefile_check := onefile_check self;
     noconsole_check := noconsole_check self;
     pack_btn := pack_btn self;
     install_btn := install_btn self;
     progress_visible := progress_visible self;
     progress_range := v;
     log_text := log_text self;
     shown := shown self;
     started := started self;
     opened := opened self |}.

Definition set_log_text (v : list str) : PyPackerWindow :=
  {| pyinstaller_available := pyinstaller_available self;
     current_script := current_script self;
     build_thread := build_thread self;
     path_edit := path_edit self;
     icon_edit := icon_edit self;
     onefile_check := onefile_check self;
     noconsole_check := noconsole_check self;
     pack_btn := pack_btn self;
     install_btn := install_btn self;
     progress_visible := progress_visible self;
     progress_range := progress_range self;
     log_text := v;
     shown := shown self;
     started := started self;
     opened := opened self |}.

Definition set_shown (v : list MessageBox) : PyPackerWindow :=
  {| pyinstaller_available := pyinstaller_available self;
     current_script := current_script self;
     build_thread := build_thread self;
     path_edit := path_edit self;
     icon_edit := icon_edit self;
     onefile_check := onefile_check self;
     noconsole_check := noconsole_check self;
     pack_btn := pack_btn self;
     install_btn := install_btn self;
     progress_visible := progress_visible self;
     progress_range := progress_range self;
     log_text := log_text self;
     shown := v;
     started := started self;
     opened := opened self |}.

Definition set_started (v : list Started) : PyPackerWindow :=
  {| pyinstaller_available := pyinstaller_available self;
     current_script := current_script self;
     build_thread := build_thread self;
     path_edit := path_edit self;
     icon_edit := icon_edit self;
     onefile_check := onefile_check self;
     noconsole_check := noconsole_check self;
     pack_btn := pack_btn self;
     install_btn := install_btn self;
     progress_visible := progress_visible self;
     progress_range := progress_range self;
     log_text := log_text self;
     shown := shown self;
     started := v;
     opened := opened self |}.

Definition set_opened (v : list str) : PyPackerWindow :=
  {| pyinstaller_available := pyinstaller_available self;
     current_script := current_script self;
     build_thread := build_thread self;
     path_edit := path_edit self;
     icon_edit := icon_edit self;
     onefile_check := onefile_check self;
     noconsole_check := noconsole_check self;
     pack_btn := pack_btn self;
     install_btn := install_btn self;
     progress_visible := progress_visible self;
     progress_range := progress_range self;
     log_text := log_text self;
     shown := shown self;
     started := started self;
     opened := v |}.

End Setters.

Notation "w |> f" := (f w) (at level 45, left associativity, only parsing).

(** *** Widget operations and message boxes *)

Definition path_edit_setText (t : str) (self : PyPackerWindow) :=
  set_path_edit self t.

Definition icon_edit_setText (t : str) (self : PyPackerWindow) :=
  set_icon_edit self t.

Definition pack_btn_setEnabled (b : bool) (self : PyPackerWindow) :=
  set_pack_btn self b.

Definition install_btn_setEnabled (b : bool) (self : PyPackerWindow) :=
  set_install_btn self
    (option_map (fun btn => {| enabled := b; hidden := hidden btn |})
                (install_btn self)).

Definition install_btn_hide (self : PyPackerWindow) :=
  set_install_btn self
    (option_map (fun btn => {| enabled := enabled btn; hidden := true |})
                (install_btn self)).

Definition progress_setVisible (b : bool) (self : PyPackerWindow) :=
  set_progress_visible self b.

Definition progress_setRange (lo hi : Z) (self : PyPackerWindow) :=
  set_progress_range self (lo, hi).

Definition log_text_clear (self : PyPackerWindow) :=
  set_log_text self [].

Definition QMessageBox (k : BoxKind) (ttl txt : str)
    (self : PyPackerWindow) :=
  set_shown self
    (shown self ++ [{| kind := k; title := ttl; body := txt |}]).

(** [t.start()] *)
Definition start (t : Started) (self : PyPackerWindow) :=
  set_started self (started self ++ [t]).

(** [log]: the message is appended to the log view. *)
Definition log (message : str) (self : PyPackerWindow) :=
  set_log_text self (log_text self ++ [message]).

(** *** Handlers *)

(** [self.icon_edit.text() or None] *)
Definition or_None (s : str) : option str :=
  if truthy s then Some s else None.

(** [not self.current_script] is false only for a non-empty string. *)
Definition script_selected (self : PyPackerWindow) : option str :=
  match current_script self with
  | Some s => or_None s
  | None => None
  end.

Definition start_pack (env : Env) (self : PyPackerWindow) : PyPackerWindow :=
  match script_selected self with
  | None => self |> QMessageBox Warning (u "提示") (u "请先选择脚本")
  | Some script_path =>
    if negb (pyinstaller_available self) then
      self |> QMessageBox Warning (u "提示") (u "请先安装 PyInstaller")
    else if negb (os_path_exists env script_path) then
      self |> QMessageBox Critical (u "错误") (u "文件不存在")
    else
      let self := self |> log_text_clear in
      let script_dir :=
        os_path_dirname env (os_path_abspath env script_path) in
      let output_folder := os_path_join env script_dir (u "输出") in
      let self := self |> pack_btn_setEnabled false
                       |> progress_setVisible true
                       |> progress_setRange 0 0 in
      let t := {| script_path := script_path;
                  output_folder := output_folder;
                  onefile := onefile_check self;
                  noconsole := noconsole_check self;
                  icon_path := or_None (icon_edit self) |} in
      let self := set_build_thread self (Some t) in
      self |> start (Build t)
  end.

Definition on_file_dropped (env : Env) (file_path : str)
    (self : PyPackerWindow) : PyPackerWindow :=
  if os_path_exists env file_path || endswith file_path (u ".py") then
    let self := self |> path_edit_setText file_path in
    let self := set_current_script self (Some file_path) in
    self |> pack_btn_setEnabled true
         |> log (u "已选择: " ++ file_path)
  else self.

(** A URL of a drop event, with the result of its [toLocalFile]. *)
Record QUrl := { toLocalFile : str }.

(** The loop of [dropEvent] over [event.mimeData().urls()]. *)
Fixpoint dropEvent_urls (env : Env) (urls : list QUrl)
    (self : PyPackerWindow) : PyPackerWindow :=
  match urls with
  | [] => self
  | url :: rest =>
    let file_path := toLocalFile url in
    if endswith file_path (u ".py") then on_file_dropped env file_path self
    else dropEvent_urls env rest self
  end.

(** [dropEvent]; [hasUrls] holds when the list of URLs is not empty.
    The style sheet of the drop label is presentation and is left out. *)
Definition dropEvent (env : Env) (urls : list QUrl)
    (self : PyPackerWindow) : PyPackerWindow :=
  match urls with
  | [] => self
  | _ :: _ => dropEvent_urls env urls self
  end.

(** [browse_file]; [file_path] is what the file dialog returned, the
    empty string when it was cancelled. *)
Definition browse_file (env : Env) (file_path : str)
    (self : PyPackerWindow) : PyPackerWindow :=
  if truthy file_path then on_file_dropped env file_path self else self.

Definition browse_icon (file_path : str) (self : PyPackerWindow)
  : PyPackerWindow :=
  if truthy file_path then self |> icon_edit_setText file_path else self.

Definition install_pyinstaller (self : PyPackerWindow) : PyPackerWindow :=
  self |> log (u "正在安装 PyInstaller...")
       |> progress_setVisible true
       |> progress_setRange 0 0
       |> install_btn_setEnabled false
       |> start InstallTask.

(** The body of the thread started by [install_pyinstaller]. *)
Definition install_task (env : Env) (self : PyPackerWindow)
  : PyPackerWindow :=
  let pip := [sys_executable env; u "-m"; u "pip"; u "install";
              u "pyinstaller"] in
  let self :=
    match subprocess_run env pip with
    | inr result =>
      if (result =? 0)%Z then
        let self := set_pyinstaller_available self true in
        self |> pack_btn_setEnabled true
             |> log (u "安装成功!")
             |> install_btn_hide
             |> QMessageBox Information (u "完成") (u "PyInstaller 安装成功")
      else
        self |> log (u "安装失败")
             |> QMessageBox Critical (u "错误") (u "安装失败")
             |> install_btn_setEnabled true
    | inl e =>
      self |> log (u "安装异常: " ++ message e)
           |> QMessageBox Critical (u "错误") (message e)
           |> install_btn_setEnabled true
    end in
  self |> progress_setRange 0 100 |> progress_setVisible false.

Definition open_folder (env : Env) (path : str) (self : PyPackerWindow)
  : PyPackerWindow :=
  let failed e := self |> log (u "无法打开: " ++ message e) in
  if str_eqb (sys_platform env) (u "win32") then
    match os_startfile env path with
    | None => set_opened self (opened self ++ [path])
    | Some e => failed e
    end
  else
    match subprocess_run env [u "xdg-open"; path] with
    | inr _ => set_opened self (opened self ++ [path])
    | inl e => failed e
    end.

(** [on_pack_finished]; [reply] tells whether the user answers Yes to
    the question box.  [abspath] of a missing [current_script] raises, so
    the handler stops there. *)
Definition on_pack_finished (env : Env) (success reply : bool)
    (self : PyPackerWindow) : PyPackerWindow :=
  let self := self |> progress_setRange 0 100
                   |> progress_setVisible false
                   |> pack_btn_setEnabled true in
  if success then
    match current_script self with
    | None => self
    | Some script =>
      let output_path :=
        os_path_join env
          (os_path_dirname env (os_path_abspath env script)) (u "输出") in
      let self :=
        self |> QMessageBox Question (u "完成")
                  (u "打包完成，是否打开输出目录？") in
      if reply then open_folder env output_path self else self
    end
  else self.

(** [_check_pyinstaller] *)
Definition _check_pyinstaller (env : Env) : bool :=
  if PyInstaller_importable env then true
  else match shutil_which env (u "pyinstaller") with
       | Some _ => true
       | None => false
       end.

(** [_handle_args]; the first [strip] removes double quotes (code point
    34), the second single quotes. *)
Definition _handle_args (env : Env) (self : PyPackerWindow)
  : PyPackerWindow :=
  match sys_argv env with
  | _ :: arg :: _ =>
    let script_path := strip (u "'") (strip [34%N] arg) in
    if endswith script_path (u ".py") && os_path_exists env script_path
    then
      let self := self |> path_edit_setText script_path in
      let self := set_current_script self (Some script_path) in
      self |> pack_btn_setEnabled true |> start_pack env
    else self
  | _ => self
  end.

(** [__init__] with [setup_ui]: the window when it is first shown. *)
Definition init (env : Env) : PyPackerWindow :=
  let available := _check_pyinstaller env in
  _handle_args env
    {| pyinstaller_available := available;
       current_script := None;
       build_thread := None;
       path_edit := [];
       icon_edit := [];
       onefile_check := true;
       noconsole_check := false;
       pack_btn := false;
       install_btn :=
         if available then None
         else Some {| enabled := true; hidden := false |};
       progress_visible := false;
       progress_range := (0, 0)%Z;
       log_text := [];
       shown := [];
       started := [];
       opened := [] |}.

(** *** Signals reaching their slots, and the events of a session *)

(** [log_signal] is connected to [log], [finished_signal] to
    [on_pack_finished]. *)
Definition deliver (env : Env) (reply : bool) (s : Signal)
    (self : PyPackerWindow) : PyPackerWindow :=
  match s with
  | log_signal message => log message self
  | finished_signal success => on_pack_finished env success reply self
  end.

Definition deliver_all (env : Env) (reply : bool) (ss : list Signal)
    (self : PyPackerWindow) : PyPackerWindow :=
  fold_left (fun w s => deliver env reply s w) ss self.

(** The build thread of the window runs to its end and every signal it
    emits reaches its slot. *)
Definition build_runs (env : Env) (reply : bool) (self : PyPackerWindow)
  : PyPackerWindow :=
  match build_thread self with
  | Some t => deliver_all env reply (run env t) self
  | None => self
  end.

(** What can happen to the window.  A click reaches its handler only
    when the button is enabled and visible. *)
Inductive Event :=
| Drop (urls : list QUrl)
| BrowseFile (chosen : str)
| BrowseIcon (chosen : str)
| SetOnefile (checked : bool)
| SetNoconsole (checked : bool)
| ClickPack
| ClickInstall
| InstallTaskRuns
| Delivered (s : Signal) (reply : bool).

Definition step (env : Env) (ev : Event) (self : PyPackerWindow)
  : PyPackerWindow :=
  match ev with
  | Drop urls => dropEvent env urls self
  | BrowseFile chosen => browse_file env chosen self
  | BrowseIcon chosen => browse_icon chosen self
  | SetOnefile b => set_onefile_check self b
  | SetNoconsole b => set_noconsole_check self b
  | ClickPack => if pack_btn self then start_pack env self else self
  | ClickInstall =>
    match install_btn self with
    | Some btn =>
      if enabled btn && negb (hidden btn) then install_pyinstaller self
      else self
    | None => self
    end
  | InstallTaskRuns => install_task env self
  | Delivered s reply => deliver env reply s self
  end.

Definition exec (env : Env) (evs : list Event) (self : PyPackerWindow)
  : PyPackerWindow :=
  fold_left (fun w ev => step env ev w) evs self.

Arguments u : simpl never.
Arguments times : simpl never.

(** ** A sample environment

    Used to evaluate the definitions on concrete inputs: a POSIX-like
    machine whose files are listed in [files], where every spawned process
    behaves as [proc] and [subprocess.run] returns [pip_rc]. *)

Module Sample.

Definition slash : char := 47%N.

Definition is_abs (p : str) : bool :=
  match p with
  | c :: _ => (c =? slash)%N
  | [] => false
  end.

Definition join (a b : str) : str :=
  if is_abs b then b
  else if negb (truthy a) || endswith a [slash] then a ++ b
  else a ++ slash :: b.

Definition abspath (p : str) : str :=
  if is_abs p then p else join (u "/home/user") p.

Definition dirname (p : str) : str :=
  let head := rev (dropwhile (fun c => negb (c =? slash)%N) (rev p)) in
  match rev head with
  | _ :: (_ :: _) as r => rev r
  | _ => head
  end.

Definition env (files : list str) (pyinstaller : bool)
    (proc : Exception + Process) (pip_rc : Z) : Env :=
  {| sys_executable := u "/usr/bin/python3";
     sys_platform := u "linux";
     sys_argv := [u "pypacker.py"];
     PyInstaller_importable := pyinstaller;
     shutil_which := fun _ => None;
     os_path_exists := fun p => existsb (str_eqb p) files;
     os_path_abspath := abspath;
     os_path_dirname := dirname;
     os_path_join := join;
     os_startfile := fun _ => None;
     subprocess_run := fun _ => inr pip_rc;
     Popen := fun _ => proc |}.

(** A process that prints [lines] and exits with [rc]. *)
Definition exits (lines : list str) (rc : Z) : Exception + Process :=
  inr {| stdout := lines; stdout_raises := None; returncode := rc |}.

Definition app_py : str := u "/home/user/app.py".

(** A machine with the script [/home/user/app.py] and PyInstaller. *)
Definition ready (proc : Exception + Process) : Env :=
  env [app_py] true proc 0.

End Sample.

(** *** Scenarios *)

Module Scenario.
Import Sample.

(** A build of [app.py] that prints nothing and succeeds. *)
Definition quiet : Env := ready (exits [] 0).

(** The script is chosen in the file dialog, the onefile box is cleared
    and the pack button is clicked. *)
Definition folder_ready : PyPackerWindow :=
  exec quiet [BrowseFile app_py; SetOnefile false] (init quiet).

Definition folder_mode : PyPackerWindow :=
  exec quiet [ClickPack] folder_ready.

Definition folder_thread : BuildThread :=
  {| script_path := app_py;
     output_folder := u "/home/user/输出";
     onefile := false;
     noconsole := false;
     icon_path := None |}.

(** The thread for [app.py] with the check boxes as they start. *)
Definition app_thread : BuildThread :=
  {| script_path := app_py;
     output_folder := u "/home/user/输出";
     onefile := true;
     noconsole := false;
     icon_path := None |}.

(** A script path that no file has. *)
Definition missing_py : str := u "/home/user/missing.py".

(** A machine without PyInstaller. *)
Definition bare : Env := env [app_py] false (exits [] 0) 0.

(** Two URLs are dropped: a text file, then the script. *)
Definition two_urls : list QUrl :=
  [{| toLocalFile := u "/home/user/notes.txt" |};
   {| toLocalFile := app_py |}].

(** A build of [app.py] that prints one line and exits with code 1. *)
Definition failing : Env := ready (exits [u "error"] 1).

(** The script is chosen, the pack button is clicked, and the build
    runs to its end. *)
Definition failed_build : PyPackerWindow :=
  build_runs failing true
    (exec failing [BrowseFile app_py; ClickPack] (init failing)).

(** Without PyInstaller, the install button is clicked. *)
Definition installing : PyPackerWindow :=
  exec bare [ClickInstall] (init bare).


(** A machine where folders cannot be opened: [xdg-open] is missing. *)
Definition no_opener : Env :=
  {| sys_executable := u "/usr/bin/python3";
     sys_platform := u "linux";
     sys_argv := [u "pypacker.py"];
     PyInstaller_importable := true;
     shutil_which := fun _ => None;
     os_path_exists := fun p => str_eqb p app_py;
     os_path_abspath := abspath;
     os_path_dirname := dirname;
     os_path_join := join;
     os_startfile := fun _ => None;
     subprocess_run := fun _ => inl {| message := u "No such file" |};
     Popen := fun _ => exits [] 0 |}.

(** A machine where the build dies while its output is read. *)
Definition broken_pipe : Env :=
  ready (inr {| stdout := [u "building  "];
                stdout_raises := Some {| message := u "decode error" |};
                returncode := 0 |}).

(** A build that prints two lines and succeeds. *)
Definition chatty : Env := ready (exits [u "INFO: done  "; u "ok"] 0).

(** A machine that also has the icon [app.ico]. *)
Definition with_icon : Env :=
  env [app_py; u "/home/user/app.ico"] true (exits [] 0) 0.

(** The script and the icon are chosen in their dialogs. *)
Definition icon_ready : PyPackerWindow :=
  exec with_icon [BrowseFile app_py; BrowseIcon (u "/home/user/app.ico")]
       (init with_icon).

Definition icon_thread : BuildThread :=
  {| script_path := app_py;
     output_folder := u "/home/user/输出";
     onefile := true;
     noconsole := false;
     icon_path := Some (u "/home/user/app.ico") |}.

End Scenario.

(** ** Properties named by the specification *)

(** The six leading arguments of every command. *)
Definition base (env : Env) (self : BuildThread) : list str :=
  [sys_executable env; u "-m"; u "PyInstaller";
   u "--distpath"; output_folder self; u "--noconfirm"].

(** The icon arguments: present when an icon path was given (neither
    [None] nor empty) and that file exists. *)
Definition icon_args (env : Env) (self : BuildThread) : list str :=
  match icon_path self with
  | Some p => if truthy p && os_path_exists env p then [u "--icon"; p]
              else []
  | None => []
  end.

(** The command if an unchecked onefile box added nothing. *)
Definition passthrough_command (env : Env) (self : BuildThread)
  : list str :=
  base env self
  ++ (if onefile self then [u "-F"] else [])
  ++ (if noconsole self then [u "-w"] else [])
  ++ icon_args env self ++ [script_path self].

(** A command holds exactly one of the two mode flags. *)
Definition one_mode_flag (cmd : list str) : Prop :=
  (In (u "-F") cmd /\ ~ In (u "-D") cmd)
  \/ (In (u "-D") cmd /\ ~ In (u "-F") cmd).

Definition is_mode_flag (s : str) : Prop := s = u "-F" \/ s = u "-D".

(** The values of the [finished_signal]s among emitted signals. *)
Definition finished_values (ss : list Signal) : list bool :=
  flat_map (fun s => match s with
                     | finished_signal b => [b]
                     | log_signal _ => []
                     end) ss.

(** The messages of the [log_signal]s among emitted signals. *)
Definition log_messages (ss : list Signal) : list str :=
  flat_map (fun s => match s with
                     | log_signal m => [m]
                     | finished_signal _ => []
                     end) ss.

(** The subprocess was spawned, its output was read to the end, and it
    exited with return code zero. *)
Definition exited_zero (env : Env) (self : BuildThread) : Prop :=
  exists p,
    Popen env (popen_args env self) = inr p
    /\ stdout_raises p = None
    /\ returncode p = 0%Z.

(** The value [run] reports: [true] exactly when the subprocess was
    spawned, read to the end and exited with code zero. *)
Definition succeeded (env : Env) (self : BuildThread) : bool :=
  match Popen env (popen_args env self) with
  | inl _ => false
  | inr p => match stdout_raises p with
             | Some _ => false
             | None => (returncode p =? 0)%Z
             end
  end.

(** The two lines [run] logs before it spawns the subprocess. *)
Definition header (env : Env) (self : BuildThread) : list str :=
  [u "执行命令: " ++ join (u " ") (command env self); times (u "-") 50].

(** What [run] logs and reports once the output has been read. *)
Definition verdict (rc : Z) : list Signal :=
  if (rc =? 0)%Z then
    [log_signal (times (u "-") 50); log_signal (u "打包成功!");
     finished_signal true]
  else
    [log_signal (times (u "-") 50); log_signal (u "打包失败");
     finished_signal false].

(** What the [except] branch of [run] logs and reports. *)
Definition caught (e : Exception) : list Signal :=
  [log_signal (u "执行异常: " ++ message e); finished_signal false].


Definition is_build (x : Started) : bool :=
  match x with Build _ => true | InstallTask => false end.


Definition installs (l : list Started) : nat :=
  List.length (filter (fun x => negb (is_build x)) l).



(** [is_py url]: the local file of [url] ends with [.py]. *)
Definition is_py (url : QUrl) : bool := endswith (toLocalFile url) (u ".py").

(** The last message box shown is the error that the file does not
    exist. *)
Definition rejected_with_error (self : PyPackerWindow) : Prop :=
  exists boxes,
    shown self
    = boxes ++ [{| kind := Critical; title := u "错误";
                   body := u "文件不存在" |}].

(** The platform opens the folder [path] without raising: through
    [os.startfile] on Windows, through [xdg-open] elsewhere. *)
Definition opens (env : Env) (path : str) : Prop :=
  if str_eqb (sys_platform env) (u "win32")
  then os_startfile env path = None
  else exists rc, subprocess_run env [u "xdg-open"; path] = inr rc.

(** The build thread started last, if any. *)
Definition last_build (l : list Started) : option BuildThread :=
  fold_left (fun cur x => match x with
                          | Build t => Some t
                          | InstallTask => cur
                          end) l None.

(** The warning that PyInstaller has to be installed first. *)
Definition install_warning : MessageBox :=
  {| kind := Warning; title := u "提示"; body := u "请先安装 PyInstaller" |}.

(** The exception the platform raises when asked to open [path], if
    any.  An exit code of [xdg-open] is not looked at. *)
Definition open_error (env : Env) (path : str) : option Exception :=
  if str_eqb (sys_platform env) (u "win32")
  then os_startfile env path
  else match subprocess_run env [u "xdg-open"; path] with
       | inl e => Some e
       | inr _ => None
       end.

(** The folder [on_pack_finished] offers to open for the script [s]. *)
Definition output_path (env : Env) (s : str) : str :=
  os_path_join env (os_path_dirname env (os_path_abspath env s)) (u "输出").

(** The path field shows the selected script, which is never the empty
    string; with no script selected the field is empty. *)
Definition selection_shown (self : PyPackerWindow) : Prop :=
  match current_script self with
  | Some s => s <> [] /\ path_edit self = s
  | None => path_edit self = []
  end.

(** The icon field after the events [evs]: the last non-empty choice of
    the icon dialog, or else what it held before. *)
Definition chosen_icon (evs : list Event) (icon : str) : str :=
  fold_left (fun cur ev => match ev with
                           | BrowseIcon chosen =>
                             if truthy chosen then chosen else cur
                           | _ => cur
                           end) evs icon.

(** No install thread gets to run its body among the events. *)
Definition install_pending (evs : list Event) : Prop :=
  Forall (fun ev => ev <> InstallTaskRuns) evs.

(** The command of [install_task]. *)
Definition pip_command (env : Env) : list str :=
  [sys_executable env; u "-m"; u "pip"; u "install"; u "pyinstaller"].

(** pip cannot be run, or exits with a nonzero code. *)
Definition pip_fails (env : Env) : Prop :=
  match subprocess_run env (pip_command env) with
  | inl _ => True
  | inr rc => rc <> 0%Z
  end.

(** The text of the error box of a failed installation. *)
Definition pip_failure_text (env : Env) : str :=
  match subprocess_run env (pip_command env) with
  | inl e => message e
  | inr _ => u "安装失败"
  end.

(** A machine without PyInstaller on which pip exits with code 1. *)
Definition offline : Env := Sample.env [Sample.app_py] false (Sample.exits [] 0) 1.

(** The machine [env] with the program started as [argv]. *)
Definition with_argv (env : Env) (argv : list str) : Env :=
  {| sys_executable := sys_executable env;
     sys_platform := sys_platform env;
     sys_argv := argv;
     PyInstaller_importable := PyInstaller_importable env;
     shutil_which := shutil_which env;
     os_path_exists := os_path_exists env;
     os_path_abspath := os_path_abspath env;
     os_path_dirname := os_path_dirname env;
     os_path_join := os_path_join env;
     os_startfile := os_startfile env;
     subprocess_run := subprocess_run env;
     Popen := Popen env |}.

(** The double and the single quote. *)
Definition dquote : char := 34%N.
Definition squote : char := 39%N.

(** The script that start-up selects: the second element of [sys.argv]
    without its quotes, when that ends with [.py] and exists. *)
Definition startup_script (env : Env) : option str :=
  match sys_argv env with
  | _ :: arg :: _ =>
    let script_path := strip [squote] (strip [dquote] arg) in
    if endswith script_path (u ".py") && os_path_exists env script_path
    then Some script_path else None
  | _ => None
  end.

(** A path as the interpreter and the file dialogs give it: the empty
    string, or an absolute path, which holds a slash or a backslash. *)
Definition pathlike (s : str) : Prop :=
  s = [] \/ In 47%N s \/ In 92%N s.

(** What the file dialogs of a session return is the empty string (the
    dialog was cancelled) or an absolute path. *)
Definition dialog_paths (evs : list Event) : Prop :=
  Forall (fun ev => match ev with
                    | BrowseFile chosen => pathlike chosen
                    | BrowseIcon chosen => pathlike chosen
                    | _ => True
                    end) evs.

(** On the machine [env], [sys.executable] is a path and [os.path.join]
    ends its result with the last component. *)
Definition paths_as_usual (env : Env) : Prop :=
  pathlike (sys_executable env)
  /\ forall d, endswith (os_path_join env d (u "输出")) (u "输出") = true.

(** None of the strings a build thread passes through is a mode flag. *)
Definition flag_free_thread (t : BuildThread) : Prop :=
  ~ is_mode_flag (script_path t)
  /\ ~ is_mode_flag (output_folder t)
  /\ forall p, icon_path t = Some p -> ~ is_mode_flag p.

(** Neither the selected script, nor the icon field, nor a started build
    thread holds a mode flag. *)
Definition flag_free (self : PyPackerWindow) : Prop :=
  (forall s, current_script self = Some s -> ~ is_mode_flag s)
  /\ ~ is_mode_flag (icon_edit self)
  /\ forall t, In (Build t) (started self) -> flag_free_thread t.

(** Lines streamed one by one: each is read and then forwarded, with
    its trailing whitespace stripped, before the next one is read. *)
Definition streamed (lines : list str) : list Action :=
  flat_map (fun line => [ReadLine line; Emitted (log_signal (rstrip line))])
           lines.

(** What the thread does before it reads the first line. *)
Definition opening (env : Env) (self : BuildThread) : list Action :=
  map Emitted (map log_signal (header env self))
  ++ [Spawn (popen_args env self)].

(** * Theorems *)

(** ** The command line *)

Lemma command_eq (env : Env) (self : BuildThread) :
  command env self =
    base env self
    ++ [if onefile self then u "-F" else u "-D"]
    ++ (if noconsole self then [u "-w"] else [])
    ++ icon_args env self ++ [script_path self].
Proof.
  unfold command, icon_args, base, append, extend.
  destruct (onefile self), (noconsole self), (icon_path self) as [p|];
    try destruct (truthy p && os_path_exists env p); reflexivity.
Qed.

(** C1: the argument list built by [BuildThread.run] is the Python
    executable, [-m], [PyInstaller], [--distpath], the output folder,
    [--noconfirm], then [-F] if onefile else [-D], then [-w] if noconsole,
    then [--icon] and the icon path if one was given and the file exists,
    and the script path as last element; this list is what [Popen]
    receives. *)
Theorem command_layout (env : Env) (self : BuildThread) :
  command env self =
    [sys_executable env; u "-m"; u "PyInstaller"; u "--distpath";
     output_folder self; u "--noconfirm"]
    ++ [if onefile self then u "-F" else u "-D"]
    ++ (if noconsole self then [u "-w"] else [])
    ++ match icon_path self with
       | Some p => if truthy p && os_path_exists env p
                   then [u "--icon"; p] else []
       | None => []
       end
    ++ [script_path self]
  /\ last (command env self) [] = script_path self
  /\ args (popen_args env self) = command env self.
Proof.
  split; [apply command_eq|split; [|reflexivity]].
  unfold command, append. apply last_last.
Qed.

(** ** What [start_pack] starts *)

Lemma app_one_neq {A} (l : list A) (x : A) : l <> l ++ [x].
Proof.
  intros H. apply (f_equal (@List.length A)) in H.
  rewrite length_app in H. simpl in H. lia.
Qed.

(** A call of [start_pack] that starts a thread passed its three guards,
    and the thread is built from the selected script, the two check boxes
    and the icon field. *)
Lemma start_pack_started (env : Env) (self : PyPackerWindow)
    (t : BuildThread) :
  started (start_pack env self) = started self ++ [Build t] ->
  exists script,
    script_selected self = Some script
    /\ pyinstaller_available self = true
    /\ os_path_exists env script = true
    /\ t = {| script_path := script;
              output_folder :=
                os_path_join env
                  (os_path_dirname env (os_path_abspath env script))
                  (u "输出");
              onefile := onefile_check self;
              noconsole := noconsole_check self;
              icon_path := or_None (icon_edit self) |}.
Proof.
  unfold start_pack.
  destruct (script_selected self) as [script|];
    [|intros H; now apply app_one_neq in H].
  destruct (pyinstaller_available self);
    [|intros H; now apply app_one_neq in H].
  destruct (os_path_exists env script) eqn:Hex;
    [|intros H; now apply app_one_neq in H].
  simpl. intros H. apply app_inv_head in H.
  exists script. repeat split; congruence.
Qed.

(** Every other call leaves the list of started threads as it was. *)
Lemma start_pack_started_cases (env : Env) (self : PyPackerWindow) :
  started (start_pack env self) = started self
  \/ exists t, started (start_pack env self) = started self ++ [Build t].
Proof.
  unfold start_pack.
  destruct (script_selected self); [|now left].
  destruct (pyinstaller_available self); [|now left].
  destruct (os_path_exists env s); [|now left].
  right. eexists. reflexivity.
Qed.

(** C3 (as amended): whatever the two check boxes show when a build is
    started, the noconsole box adds exactly [-w] when checked and nothing
    when unchecked, and the onefile box adds [-F] when checked and [-D]
    when unchecked. *)
Theorem checkbox_flags (env : Env) (self : PyPackerWindow)
    (t : BuildThread) :
  started (start_pack env self) = started self ++ [Build t] ->
  command env t =
    base env t
    ++ [if onefile_check self then u "-F" else u "-D"]
    ++ (if noconsole_check self then [u "-w"] else [])
    ++ icon_args env t ++ [script_path t].
Proof.
  intros H. apply start_pack_started in H.
  destruct H as (script & _ & _ & _ & ->).
  apply command_eq.
Qed.

Lemma checkbox_flags_witness :
  started (start_pack Scenario.quiet Scenario.folder_ready)
  = started Scenario.folder_ready ++ [Build Scenario.folder_thread]
  /\ command Scenario.quiet Scenario.folder_thread =
       base Scenario.quiet Scenario.folder_thread
       ++ [u "-D"] ++ [] ++ [] ++ [Sample.app_py].
Proof.
  assert (H : started (start_pack Scenario.quiet Scenario.folder_ready)
              = started Scenario.folder_ready
                ++ [Build Scenario.folder_thread])
    by (vm_compute; reflexivity).
  split; [exact H|].
  exact (checkbox_flags Scenario.quiet Scenario.folder_ready
           Scenario.folder_thread H).
Defined.

(** C3, as stated, fails: with the onefile box unchecked the build that
    [start_pack] starts has [-D] in its command, which is not the command
    with nothing added. *)
Lemma unchecked_onefile_adds_D :
  started Scenario.folder_mode = [Build Scenario.folder_thread]
  /\ In (u "-D") (command Scenario.quiet Scenario.folder_thread)
  /\ command Scenario.quiet Scenario.folder_thread
     <> passthrough_command Scenario.quiet Scenario.folder_thread.
Proof.
  split; [vm_compute; reflexivity|split].
  - vm_compute. do 6 right. left. reflexivity.
  - vm_compute. discriminate.
Qed.

(** ** The mode flag *)

Ltac closed_neq H := vm_compute in H; discriminate H.

Lemma base_no_mode_flag (env : Env) (self : BuildThread) (f : str) :
  is_mode_flag f ->
  ~ is_mode_flag (sys_executable env) ->
  ~ is_mode_flag (output_folder self) ->
  ~ In f (base env self).
Proof.
  intros Hf Hexe Hout Hin. simpl in Hin.
  destruct Hin as [H|[H|[H|[H|[H|[H|[]]]]]]];
    try (now apply Hexe; rewrite H);
    try (now apply Hout; rewrite H);
    destruct Hf as [-> | ->]; closed_neq H.
Qed.

Lemma tail_no_mode_flag (env : Env) (self : BuildThread) (f : str) :
  is_mode_flag f ->
  ~ is_mode_flag (script_path self) ->
  (forall p, icon_path self = Some p -> ~ is_mode_flag p) ->
  ~ In f ((if noconsole self then [u "-w"] else [])
          ++ icon_args env self ++ [script_path self]).
Proof.
  intros Hf Hscript Hicon Hin.
  apply in_app_or in Hin. destruct Hin as [Hin|Hin].
  - destruct (noconsole self); simpl in Hin; [|tauto].
    destruct Hin as [H|[]]. destruct Hf as [-> | ->]; closed_neq H.
  - apply in_app_or in Hin. destruct Hin as [Hin|[H|[]]].
    + unfold icon_args in Hin.
      destruct (icon_path self) as [p|] eqn:Hp; [|contradiction].
      destruct (truthy p && os_path_exists env p); [|contradiction].
      destruct Hin as [H|[H|[]]].
      * destruct Hf as [-> | ->]; closed_neq H.
      * apply (Hicon p eq_refl). now rewrite H.
    + apply Hscript. now rewrite H.
Qed.

(** The mode flag sits at index 6, right after [--noconfirm]; when none
    of the strings passed through (the Python executable, the output
    folder, the icon path, the script path) is itself [-F] or [-D], the
    whole list holds exactly one of the two. *)
Lemma mode_flag_slot (env : Env) (self : BuildThread) :
  nth_error (command env self) 6
  = Some (if onefile self then u "-F" else u "-D")
  /\ (~ is_mode_flag (sys_executable env) ->
      ~ is_mode_flag (output_folder self) ->
      ~ is_mode_flag (script_path self) ->
      (forall p, icon_path self = Some p -> ~ is_mode_flag p) ->
      one_mode_flag (command env self)).
Proof.
  rewrite command_eq. split; [reflexivity|].
  intros Hexe Hout Hscript Hicon.
  assert (Hno : forall f g, is_mode_flag f -> f <> g ->
            ~ In f (base env self ++ [g]
                    ++ (if noconsole self then [u "-w"] else [])
                    ++ icon_args env self ++ [script_path self])).
  { intros f g Hf Hfg Hin.
    apply in_app_or in Hin. destruct Hin as [Hin|Hin].
    - now apply (base_no_mode_flag env self f Hf Hexe Hout) in Hin.
    - apply in_app_or in Hin. destruct Hin as [[H|[]]|Hin].
      + now apply Hfg.
      + now apply (tail_no_mode_flag env self f Hf Hscript Hicon) in Hin. }
  assert (Hin : forall g, In g (base env self ++ [g]
                    ++ (if noconsole self then [u "-w"] else [])
                    ++ icon_args env self ++ [script_path self])).
  { intros g. apply in_or_app. right. now left. }
  destruct (onefile self); [left|right]; (split; [apply Hin|]);
    apply Hno; try (now left); try (now right);
    intros H; closed_neq H.
Qed.

(** ** The output folder *)

Lemma script_selected_current (self : PyPackerWindow) (script : str) :
  script_selected self = Some script -> current_script self = Some script.
Proof.
  unfold script_selected, or_None.
  destruct (current_script self) as [s|]; [|discriminate].
  destruct (truthy s); [|discriminate]. intros H. exact H.
Qed.

(** C9: the thread that [start_pack] starts gets, as output folder, the
    subdirectory [输出] of the directory of the selected script; the
    command passes it right after [--distpath]; and it depends on nothing
    else the user sets: two windows with the same selected script start
    builds with the same output folder. *)
Theorem distpath_is_output_subfolder (env : Env) (self : PyPackerWindow)
    (t : BuildThread) :
  started (start_pack env self) = started self ++ [Build t] ->
  (exists script,
     current_script self = Some script
     /\ output_folder t
        = os_path_join env
            (os_path_dirname env (os_path_abspath env script)) (u "输出"))
  /\ nth_error (command env t) 3 = Some (u "--distpath")
  /\ nth_error (command env t) 4 = Some (output_folder t)
  /\ (forall self' t',
        current_script self' = current_script self ->
        started (start_pack env self') = started self' ++ [Build t'] ->
        output_folder t' = output_folder t).
Proof.
  intros H. apply start_pack_started in H.
  destruct H as (script & Hsel & _ & _ & Ht).
  apply script_selected_current in Hsel.
  split; [|split; [|split]].
  - exists script. split; [exact Hsel|]. rewrite Ht. reflexivity.
  - rewrite command_eq. reflexivity.
  - rewrite command_eq. reflexivity.
  - intros self' t' Hsame H'. apply start_pack_started in H'.
    destruct H' as (script' & Hsel' & _ & _ & Ht').
    apply script_selected_current in Hsel'.
    assert (script' = script) by congruence.
    subst. reflexivity.
Qed.

Lemma distpath_is_output_subfolder_witness :
  started (start_pack Scenario.quiet Scenario.folder_ready)
  = started Scenario.folder_ready ++ [Build Scenario.folder_thread]
  /\ nth_error (command Scenario.quiet Scenario.folder_thread) 4
     = Some (u "/home/user/输出").
Proof.
  assert (H : started (start_pack Scenario.quiet Scenario.folder_ready)
              = started Scenario.folder_ready
                ++ [Build Scenario.folder_thread])
    by (vm_compute; reflexivity).
  split; [exact H|].
  exact (proj1 (proj2 (proj2
           (distpath_is_output_subfolder Scenario.quiet
              Scenario.folder_ready Scenario.folder_thread H)))).
Defined.

(** ** Selecting a script *)

Lemma endswith_py_truthy (s : str) :
  endswith s (u ".py") = true -> truthy s = true.
Proof.
  unfold endswith. intros H. apply andb_prop in H. destruct H as [H _].
  destruct s; [|reflexivity]. vm_compute in H. discriminate H.
Qed.

Lemma on_file_dropped_accepts (env : Env) (file_path : str)
    (self : PyPackerWindow) :
  os_path_exists env file_path || endswith file_path (u ".py") = true ->
  on_file_dropped env file_path self
  = log (u "已选择: " ++ file_path)
      (pack_btn_setEnabled true
         (set_current_script (path_edit_setText file_path self)
            (Some file_path))).
Proof. unfold on_file_dropped. intros ->. reflexivity. Qed.

Lemma dropEvent_urls_find (env : Env) (urls : list QUrl)
    (self : PyPackerWindow) :
  dropEvent_urls env urls self =
    match find is_py urls with
    | Some url => on_file_dropped env (toLocalFile url) self
    | None => self
    end.
Proof.
  induction urls as [|url rest IH]; simpl; [reflexivity|].
  unfold is_py at 1. destruct (endswith (toLocalFile url) (u ".py"));
    [reflexivity|exact IH].
Qed.

Lemma dropEvent_find (env : Env) (urls : list QUrl)
    (self : PyPackerWindow) :
  dropEvent env urls self =
    match find is_py urls with
    | Some url => on_file_dropped env (toLocalFile url) self
    | None => self
    end.
Proof.
  destruct urls as [|url rest]; [reflexivity|].
  unfold dropEvent. apply dropEvent_urls_find.
Qed.

(** C7: a drop selects the first URL whose local file ends with [.py],
    through [on_file_dropped], and skips the URLs before it; without such
    a URL nothing changes.  A path chosen in the file dialog goes through
    the same [on_file_dropped]; a cancelled dialog changes nothing. *)
Theorem first_py_url_selected (env : Env) (urls : list QUrl)
    (self : PyPackerWindow) :
  dropEvent env urls self =
    match find is_py urls with
    | Some url => on_file_dropped env (toLocalFile url) self
    | None => self
    end
  /\ (forall url, find is_py urls = Some url ->
        current_script (dropEvent env urls self) = Some (toLocalFile url)
        /\ path_edit (dropEvent env urls self) = toLocalFile url
        /\ pack_btn (dropEvent env urls self) = true)
  /\ (forall file_path, file_path <> [] ->
        browse_file env file_path self
        = on_file_dropped env file_path self)
  /\ browse_file env [] self = self.
Proof.
  pose proof (dropEvent_find env urls self) as Hd.
  split; [exact Hd|split; [|split]].
  - intros url Hfind. rewrite Hd, Hfind.
    apply find_some in Hfind. destruct Hfind as [_ Hpy].
    unfold is_py in Hpy. rewrite on_file_dropped_accepts.
    + repeat split; reflexivity.
    + rewrite Hpy. apply orb_true_r.
  - intros file_path Hne. unfold browse_file.
    destruct file_path; [contradiction|reflexivity].
  - reflexivity.
Qed.

Lemma first_py_url_selected_witness :
  find is_py Scenario.two_urls = Some {| toLocalFile := Sample.app_py |}
  /\ current_script
       (dropEvent Scenario.quiet Scenario.two_urls (init Scenario.quiet))
     = Some Sample.app_py
  /\ browse_file Scenario.quiet Sample.app_py (init Scenario.quiet)
     = on_file_dropped Scenario.quiet Sample.app_py (init Scenario.quiet).
Proof.
  destruct (first_py_url_selected Scenario.quiet Scenario.two_urls
              (init Scenario.quiet)) as (_ & Hsel & Hbrowse & _).
  assert (H : find is_py Scenario.two_urls
              = Some {| toLocalFile := Sample.app_py |})
    by (vm_compute; reflexivity).
  split; [exact H|split].
  - exact (proj1 (Hsel _ H)).
  - apply Hbrowse. vm_compute. discriminate.
Defined.

(** C10 (as amended): [on_file_dropped] accepts a path that exists or
    merely ends with [.py]: it becomes the selected script and the pack
    button is enabled.  For an accepted path ending in [.py] that does
    not exist when [start_pack] runs, [start_pack] starts no thread and
    leaves the selected script alone; it shows the error that the file
    does not exist when PyInstaller is available, and otherwise stops
    earlier, at the warning to install PyInstaller. *)
Theorem missing_script_rejected (env env' : Env) (file_path : str)
    (self : PyPackerWindow) :
  (os_path_exists env file_path = true
   \/ endswith file_path (u ".py") = true ->
   current_script (on_file_dropped env file_path self) = Some file_path
   /\ pack_btn (on_file_dropped env file_path self) = true)
  /\ (endswith file_path (u ".py") = true ->
      os_path_exists env' file_path = false ->
      let selected := on_file_dropped env file_path self in
      started (start_pack env' selected) = started selected
      /\ build_thread (start_pack env' selected) = build_thread selected
      /\ current_script (start_pack env' selected) = Some file_path
      /\ shown (start_pack env' selected)
         = shown selected
           ++ [if pyinstaller_available self
               then {| kind := Critical; title := u "错误";
                       body := u "文件不存在" |}
               else {| kind := Warning; title := u "提示";
                       body := u "请先安装 PyInstaller" |}]).
Proof.
  split.
  - intros H. rewrite on_file_dropped_accepts.
    + split; reflexivity.
    + destruct H as [-> | ->]; [reflexivity|apply orb_true_r].
  - intros Hpy Hmissing selected. subst selected.
    rewrite on_file_dropped_accepts by (rewrite Hpy; apply orb_true_r).
    unfold start_pack, script_selected, or_None. simpl.
    rewrite (endswith_py_truthy _ Hpy). simpl.
    destruct (pyinstaller_available self); simpl.
    + rewrite Hmissing. simpl. repeat split; reflexivity.
    + repeat split; reflexivity.
Qed.

Lemma missing_script_rejected_witness :
  endswith Scenario.missing_py (u ".py") = true
  /\ os_path_exists Scenario.quiet Scenario.missing_py = false
  /\ current_script
       (on_file_dropped Scenario.quiet Scenario.missing_py
          (init Scenario.quiet))
     = Some Scenario.missing_py
  /\ started
       (start_pack Scenario.quiet
          (on_file_dropped Scenario.quiet Scenario.missing_py
             (init Scenario.quiet)))
     = [].
Proof.
  assert (Hpy : endswith Scenario.missing_py (u ".py") = true)
    by (vm_compute; reflexivity).
  assert (Hmissing : os_path_exists Scenario.quiet Scenario.missing_py
                     = false)
    by (vm_compute; reflexivity).
  destruct (missing_script_rejected Scenario.quiet Scenario.quiet
              Scenario.missing_py (init Scenario.quiet))
    as [Haccept Hreject].
  split; [exact Hpy|split; [exact Hmissing|split]].
  - exact (proj1 (Haccept (or_intror Hpy))).
  - exact (proj1 (Hreject Hpy Hmissing)).
Defined.

(** C10, as stated, fails where PyInstaller is missing: the path that
    does not exist is selected, and [start_pack] then shows the warning
    to install PyInstaller, not an error about the path. *)
Lemma missing_script_gets_warning :
  current_script
    (on_file_dropped Scenario.bare Scenario.missing_py (init Scenario.bare))
  = Some Scenario.missing_py
  /\ shown
       (start_pack Scenario.bare
          (on_file_dropped Scenario.bare Scenario.missing_py
             (init Scenario.bare)))
     = [{| kind := Warning; title := u "提示";
           body := u "请先安装 PyInstaller" |}]
  /\ ~ rejected_with_error
        (start_pack Scenario.bare
           (on_file_dropped Scenario.bare Scenario.missing_py
              (init Scenario.bare))).
Proof.
  split; [vm_compute; reflexivity|split; [vm_compute; reflexivity|]].
  intros [boxes H]. vm_compute in H.
  destruct boxes as [|b [|b' boxes]]; simpl in H.
  - discriminate H.
  - discriminate H.
  - discriminate H.
Qed.

(** ** The signals of a run *)

Lemma for_each_emit {A} (xs : list A) (f : A -> Signal) :
  Thread.for_each xs (fun x => Thread.emit (f x)) = (map f xs, inr tt).
Proof.
  induction xs as [|x r IH]; [reflexivity|].
  simpl. rewrite IH. reflexivity.
Qed.

(** The signals of [run], in order: the header, one [log_signal] per
    line of output, and then the verdict or the caught exception. *)
Lemma run_eq (env : Env) (self : BuildThread) :
  run env self =
    map log_signal (header env self)
    ++ match Popen env (popen_args env self) with
       | inl e => caught e
       | inr p =>
         map (fun line => log_signal (rstrip line)) (stdout p)
         ++ match stdout_raises p with
            | Some e => caught e
            | None => verdict (returncode p)
            end
       end.
Proof.
  unfold run, run_body, iter_stdout, Thread.emitted.
  destruct (Popen env (popen_args env self)) as [e|p]; [reflexivity|].
  unfold Thread.call. cbn [Thread.bind Thread.try_except Thread.emit].
  rewrite for_each_emit. unfold verdict.
  destruct (stdout_raises p) as [e|]; cbn.
  - rewrite ?app_nil_r. reflexivity.
  - destruct (returncode p =? 0)%Z; cbn; rewrite ?app_nil_r; reflexivity.
Qed.

Lemma finished_values_app (a b : list Signal) :
  finished_values (a ++ b) = finished_values a ++ finished_values b.
Proof. apply flat_map_app. Qed.

Lemma finished_values_logs {A} (f : A -> str) (xs : list A) :
  finished_values (map (fun x => log_signal (f x)) xs) = [].
Proof. induction xs; [reflexivity|exact IHxs]. Qed.

(** The one [finished_signal] of a run carries [true] exactly for the
    zero verdict. *)
Lemma finished_values_run (env : Env) (self : BuildThread) :
  finished_values (run env self) =
    match Popen env (popen_args env self) with
    | inl _ => [false]
    | inr p => match stdout_raises p with
               | Some _ => [false]
               | None => [(returncode p =? 0)%Z]
               end
    end.
Proof.
  rewrite run_eq, finished_values_app.
  change (finished_values (map log_signal (header env self))) with
    (@nil bool). simpl.
  destruct (Popen env (popen_args env self)) as [e|p]; [reflexivity|].
  rewrite finished_values_app, (finished_values_logs rstrip). simpl.
  destruct (stdout_raises p); [reflexivity|].
  unfold verdict. destruct (returncode p =? 0)%Z; reflexivity.
Qed.

(** C2: [run] emits [finished_signal] once, as its last signal; it
    carries [True] if and only if the subprocess was spawned, streamed to
    the end and exited with return code zero; a nonzero return code, an
    exception at the spawn and an exception while streaming each make it
    carry [False]. *)
Theorem success_iff_exit_zero (env : Env) (self : BuildThread) :
  (finished_values (run env self) = [true] <-> exited_zero env self)
  /\ (forall p, Popen env (popen_args env self) = inr p ->
        returncode p <> 0%Z ->
        finished_values (run env self) = [false])
  /\ (forall e, Popen env (popen_args env self) = inl e ->
        finished_values (run env self) = [false])
  /\ (forall p e, Popen env (popen_args env self) = inr p ->
        stdout_raises p = Some e ->
        finished_values (run env self) = [false])
  /\ (exists msgs b,
        run env self = map log_signal msgs ++ [finished_signal b]).
Proof.
  rewrite finished_values_run. unfold exited_zero.
  split; [|split; [|split; [|split]]].
  - destruct (Popen env (popen_args env self)) as [e|p].
    + split; [discriminate|]. intros (p & H & _). discriminate H.
    + destruct (stdout_raises p) as [e|] eqn:Hraise.
      * split; [discriminate|]. intros (q & H & Hq & _).
        injection H as <-. congruence.
      * split.
        -- intros H. injection H as H. apply Z.eqb_eq in H.
           exists p. repeat split; assumption.
        -- intros (q & H & _ & Hrc). injection H as <-.
           rewrite Hrc. reflexivity.
  - intros p -> Hrc. apply Z.eqb_neq in Hrc. rewrite Hrc.
    destruct (stdout_raises p); reflexivity.
  - intros e ->. reflexivity.
  - intros p e -> ->. reflexivity.
  - rewrite run_eq.
    destruct (Popen env (popen_args env self)) as [e|p].
    + exists (header env self ++ [u "执行异常: " ++ message e]), false.
      rewrite map_app, <- app_assoc. reflexivity.
    + destruct (stdout_raises p) as [e|].
      * exists (header env self ++ map rstrip (stdout p)
                ++ [u "执行异常: " ++ message e]), false.
        rewrite !map_app, map_map, <- !app_assoc. reflexivity.
      * unfold verdict. destruct (returncode p =? 0)%Z.
        -- exists (header env self ++ map rstrip (stdout p)
                   ++ [times (u "-") 50; u "打包成功!"]), true.
           rewrite !map_app, map_map, <- !app_assoc. reflexivity.
        -- exists (header env self ++ map rstrip (stdout p)
                   ++ [times (u "-") 50; u "打包失败"]), false.
           rewrite !map_app, map_map, <- !app_assoc. reflexivity.
Qed.

Lemma success_iff_exit_zero_witness :
  exited_zero Scenario.quiet Scenario.folder_thread
  /\ finished_values (run Scenario.quiet Scenario.folder_thread) = [true]
  /\ finished_values
       (run (Sample.ready (Sample.exits [] 1)) Scenario.folder_thread)
     = [false].
Proof.
  assert (H : exited_zero Scenario.quiet Scenario.folder_thread).
  { eexists. split; [reflexivity|split; reflexivity]. }
  split; [exact H|split].
  - exact (proj2 (proj1 (success_iff_exit_zero Scenario.quiet
                           Scenario.folder_thread)) H).
  - refine (proj1 (proj2 (success_iff_exit_zero
                            (Sample.ready (Sample.exits [] 1))
                            Scenario.folder_thread)) _ eq_refl _).
    simpl. discriminate.
Defined.

(** ** Streaming the output into the log view *)

Lemma dropwhile_split (p : char -> bool) (s : str) :
  exists ws,
    s = ws ++ dropwhile p s
    /\ Forall (fun c => p c = true) ws
    /\ (forall c r, dropwhile p s = c :: r -> p c = false).
Proof.
  induction s as [|c s IH].
  - exists []. repeat split; [constructor|discriminate].
  - simpl. destruct (p c) eqn:Hc.
    + destruct IH as (ws & Hs & Hws & Hhead).
      exists (c :: ws). repeat split.
      * simpl. f_equal. exact Hs.
      * constructor; assumption.
      * exact Hhead.
    + exists []. repeat split; [constructor|].
      intros c' r H. injection H as <- _. exact Hc.
Qed.

(** [rstrip] removes a run of whitespace from the end, and what is left
    does not end in whitespace. *)
Lemma rstrip_spec (line : str) :
  exists ws,
    line = rstrip line ++ ws
    /\ Forall (fun c => isspace c = true) ws
    /\ (forall c r, rev (rstrip line) = c :: r -> isspace c = false).
Proof.
  unfold rstrip.
  destruct (dropwhile_split isspace (rev line)) as (ws & Hs & Hws & Hhead).
  exists (rev ws). repeat split.
  - rewrite <- rev_app_distr, <- Hs, rev_involutive. reflexivity.
  - apply Forall_rev. exact Hws.
  - intros c r. rewrite rev_involutive. apply Hhead.
Qed.

Lemma deliver_all_app (env : Env) (reply : bool) (a b : list Signal)
    (w : PyPackerWindow) :
  deliver_all env reply (a ++ b) w
  = deliver_all env reply b (deliver_all env reply a w).
Proof. apply fold_left_app. Qed.

(** Log signals reach the log view one by one, in the order emitted. *)
Lemma deliver_logs (env : Env) (reply : bool) (msgs : list str)
    (w : PyPackerWindow) :
  deliver_all env reply (map log_signal msgs) w
  = set_log_text w (log_text w ++ msgs).
Proof.
  revert w. induction msgs as [|m msgs IH]; intros w.
  - simpl. rewrite app_nil_r. destruct w; reflexivity.
  - change (deliver_all env reply (map log_signal (m :: msgs)) w)
      with (deliver_all env reply (map log_signal msgs) (log m w)).
    rewrite IH. unfold log, set_log_text. simpl.
    rewrite <- app_assoc. reflexivity.
Qed.

Lemma run_shape (env : Env) (self : BuildThread) (p : Process) :
  Popen env (popen_args env self) = inr p ->
  exists footer b,
    run env self
    = map log_signal (header env self ++ map rstrip (stdout p) ++ footer)
      ++ [finished_signal b].
Proof.
  intros Hp. rewrite run_eq, Hp.
  destruct (stdout_raises p) as [e|].
  - exists [u "执行异常: " ++ message e], false.
    rewrite !map_app, map_map, <- !app_assoc. reflexivity.
  - unfold verdict. destruct (returncode p =? 0)%Z.
    + exists [times (u "-") 50; u "打包成功!"], true.
      rewrite !map_app, map_map, <- !app_assoc. reflexivity.
    + exists [times (u "-") 50; u "打包失败"], false.
      rewrite !map_app, map_map, <- !app_assoc. reflexivity.
Qed.

Lemma log_messages_logs (msgs : list str) (b : bool) :
  log_messages (map log_signal msgs ++ [finished_signal b]) = msgs.
Proof.
  unfold log_messages. rewrite flat_map_app. simpl. rewrite app_nil_r.
  induction msgs as [|m msgs IH]; [reflexivity|].
  simpl. f_equal. exact IH.
Qed.

(** [on_pack_finished] appends to the log view at most the report that
    the folder could not be opened. *)
Lemma on_pack_finished_log_cases (env : Env) (success reply : bool)
    (w : PyPackerWindow) :
  exists extra,
    log_text (on_pack_finished env success reply w) = log_text w ++ extra
    /\ (extra = []
        \/ exists e, extra = [u "无法打开: " ++ message e]).
Proof.
  assert (Hnone : exists extra,
            log_text w = log_text w ++ extra
            /\ (extra = []
                \/ exists e, extra = [u "无法打开: " ++ message e])).
  { exists []. split; [symmetry; apply app_nil_r|now left]. }
  unfold on_pack_finished.
  destruct success; [|exact Hnone].
  simpl. destruct (current_script w); [|exact Hnone].
  destruct reply; [|exact Hnone].
  unfold open_folder.
  destruct (str_eqb (sys_platform env) (u "win32")).
  - destruct (os_startfile env _) as [e|]; [|exact Hnone].
    eexists. split; [reflexivity|right; exists e; reflexivity].
  - destruct (subprocess_run env _) as [e|rc]; [|exact Hnone].
    eexists. split; [reflexivity|right; exists e; reflexivity].
Qed.

Lemma for_each_line_emit (lines : list str) (f : str -> Signal) :
  Traced.for_each_line lines (fun line => Traced.emit (f line))
  = (flat_map (fun line => [ReadLine line; Emitted (f line)]) lines,
     inr tt).
Proof.
  induction lines as [|line rest IH]; [reflexivity|].
  simpl. rewrite IH. reflexivity.
Qed.

(** The actions of [run], in order: the header, the call of [Popen],
    then line after line read and forwarded, then the end of the output,
    the wait and the verdict, or the exception and its report. *)
Lemma run_trace_eq (env : Env) (self : BuildThread) :
  run_trace env self =
    opening env self
    ++ match Popen env (popen_args env self) with
       | inl e => map Emitted (caught e)
       | inr p =>
         streamed (stdout p)
         ++ match stdout_raises p with
            | Some e => ReadRaised e :: map Emitted (caught e)
            | None => ReadEnd :: Waited
                      :: map Emitted (verdict (returncode p))
            end
       end.
Proof.
  unfold run_trace, run_trace_body, iter_stdout_traced, Traced.popen,
    opening, streamed.
  destruct (Popen env (popen_args env self)) as [e|p]; [reflexivity|].
  cbn [Traced.bind Traced.try_except Traced.emit Traced.act].
  rewrite for_each_line_emit. unfold verdict.
  destruct (stdout_raises p) as [e|]; cbn.
  - rewrite ?app_nil_r, <- ?app_assoc. reflexivity.
  - destruct (returncode p =? 0)%Z; cbn;
      rewrite ?app_nil_r, <- ?app_assoc; reflexivity.
Qed.

Lemma signals_app (a b : list Action) :
  signals (a ++ b) = signals a ++ signals b.
Proof. apply flat_map_app. Qed.

Lemma signals_emitted (ss : list Signal) : signals (map Emitted ss) = ss.
Proof.
  induction ss as [|s ss IH]; [reflexivity|]. simpl. f_equal. exact IH.
Qed.

Lemma signals_streamed (lines : list str) :
  signals (streamed lines)
  = map (fun line => log_signal (rstrip line)) lines.
Proof.
  induction lines as [|line rest IH]; [reflexivity|].
  simpl. f_equal. exact IH.
Qed.

Lemma signals_opening (env : Env) (self : BuildThread) :
  signals (opening env self) = map log_signal (header env self).
Proof.
  unfold opening. rewrite signals_app, signals_emitted.
  apply app_nil_r.
Qed.

(** Both readings of [run] emit the same signals. *)
Lemma signals_run_trace (env : Env) (self : BuildThread) :
  signals (run_trace env self) = run env self.
Proof.
  rewrite run_trace_eq, run_eq, signals_app, signals_opening.
  f_equal.
  destruct (Popen env (popen_args env self)) as [e|p];
    [apply signals_emitted|].
  rewrite signals_app, signals_streamed. f_equal.
  destruct (stdout_raises p) as [e|].
  - change (signals (ReadRaised e :: map Emitted (caught e)))
      with (signals (map Emitted (caught e))).
    apply signals_emitted.
  - change (signals (ReadEnd :: Waited
                     :: map Emitted (verdict (returncode p))))
      with (signals (map Emitted (verdict (returncode p)))).
    apply signals_emitted.
Qed.

Lemma streamed_app (pre rest : list str) :
  streamed (pre ++ rest) = streamed pre ++ streamed rest.
Proof. apply flat_map_app. Qed.

(** C5: the subprocess is spawned with its standard output piped and its
    standard error merged into it.  The thread reads the output line by
    line and forwards each line, with trailing whitespace stripped, right
    after it has read it and before it reads the next one: when it has
    read the first lines of the output it has forwarded exactly these,
    in the order the subprocess wrote them, whatever the subprocess
    writes afterwards.  The log signals of the run are the two header
    lines, the lines of output, then the closing lines, and the log view
    receives these messages in that order, followed by nothing but,
    possibly, the report that the output folder could not be opened. *)
Theorem output_streamed_to_log (env : Env) (self : BuildThread) :
  stdout_arg (popen_args env self) = PIPE
  /\ stderr_arg (popen_args env self) = STDOUT
  /\ (forall p, Popen env (popen_args env self) = inr p ->
        (exists footer,
           log_messages (run env self)
           = header env self ++ map rstrip (stdout p) ++ footer)
        /\ forall reply w, exists extra,
             log_text (deliver_all env reply (run env self) w)
             = log_text w ++ log_messages (run env self) ++ extra
             /\ (extra = []
                 \/ exists e, extra = [u "无法打开: " ++ message e]))
  /\ (forall line, exists ws,
        line = rstrip line ++ ws
        /\ Forall (fun c => isspace c = true) ws
        /\ (forall c r, rev (rstrip line) = c :: r -> isspace c = false))
  /\ signals (run_trace env self) = run env self
  /\ (forall p, Popen env (popen_args env self) = inr p ->
        run_trace env self
        = opening env self ++ streamed (stdout p)
          ++ match stdout_raises p with
             | Some e => ReadRaised e :: map Emitted (caught e)
             | None => ReadEnd :: Waited
                       :: map Emitted (verdict (returncode p))
             end)
  /\ (forall p pre rest,
        Popen env (popen_args env self) = inr p ->
        stdout p = pre ++ rest ->
        exists later,
          run_trace env self = (opening env self ++ streamed pre) ++ later
          /\ signals (opening env self ++ streamed pre)
             = map log_signal (header env self ++ map rstrip pre)
          /\ match rest with
             | next :: _ =>
               exists later',
                 later = ReadLine next
                         :: Emitted (log_signal (rstrip next)) :: later'
             | [] => forall line, ~ In (ReadLine line) later
             end).
Proof.
  split; [reflexivity|split; [reflexivity|split; [|split; [|split;
    [|split]]]]].
  - intros p Hp. destruct (run_shape env self p Hp) as (footer & b & Hrun).
    rewrite Hrun, log_messages_logs. split.
    + exists footer. reflexivity.
    + intros reply w. rewrite deliver_all_app, deliver_logs.
      change (deliver_all env reply [finished_signal b] ?x)
        with (on_pack_finished env b reply x).
      match goal with
      | |- context [on_pack_finished env b reply ?x] =>
        destruct (on_pack_finished_log_cases env b reply x)
          as (extra & H & Hextra)
      end.
      exists extra. split; [|exact Hextra].
      rewrite H. simpl. rewrite <- app_assoc. reflexivity.
  - apply rstrip_spec.
  - apply signals_run_trace.
  - intros p Hp. rewrite run_trace_eq, Hp. reflexivity.
  - intros p pre rest Hp Hout.
    rewrite run_trace_eq, Hp, Hout, streamed_app.
    eexists. split; [rewrite <- !app_assoc; reflexivity|split].
    + rewrite signals_app, signals_opening, signals_streamed.
      rewrite map_app, map_map. reflexivity.
    + destruct rest as [|next rest'].
      * intros line Hin. simpl in Hin.
        destruct (stdout_raises p) as [e|]; simpl in Hin.
        -- destruct Hin as [H|[H|[H|[]]]]; discriminate H.
        -- unfold verdict in Hin.
           destruct (returncode p =? 0)%Z; simpl in Hin;
             destruct Hin as [H|[H|[H|[H|[H|[]]]]]]; discriminate H.
      * eexists. reflexivity.
Qed.

Lemma output_streamed_to_log_witness :
  Popen Scenario.chatty (popen_args Scenario.chatty Scenario.folder_thread)
  = Sample.exits [u "INFO: done  "; u "ok"] 0
  /\ (exists footer,
        log_messages (run Scenario.chatty Scenario.folder_thread)
        = header Scenario.chatty Scenario.folder_thread
          ++ [u "INFO: done"; u "ok"] ++ footer)
  /\ exists later,
       run_trace Scenario.chatty Scenario.folder_thread
       = (opening Scenario.chatty Scenario.folder_thread
          ++ [ReadLine (u "INFO: done  ");
              Emitted (log_signal (u "INFO: done"))])
         ++ ReadLine (u "ok") :: Emitted (log_signal (u "ok")) :: later.
Proof.
  split; [reflexivity|].
  destruct (output_streamed_to_log Scenario.chatty Scenario.folder_thread)
    as (_ & _ & H & _ & _ & _ & Hstream).
  split.
  - destruct (H _ eq_refl) as [[footer Hlog] _].
    exists footer. rewrite Hlog. reflexivity.
  - destruct (Hstream _ [u "INFO: done  "] [u "ok"] eq_refl eq_refl)
      as (later & Htrace & _ & later' & Hnext).
    exists later'. rewrite Htrace, Hnext. reflexivity.
Defined.

(** ** After the build *)

Lemma open_folder_shown (env : Env) (path : str) (w : PyPackerWindow) :
  shown (open_folder env path w) = shown w.
Proof.
  unfold open_folder.
  destruct (str_eqb (sys_platform env) (u "win32")).
  - destruct (os_startfile env path); reflexivity.
  - destruct (subprocess_run env [u "xdg-open"; path]); reflexivity.
Qed.

(** The signals of a run are log signals followed by the one
    [finished_signal], which carries [succeeded]. *)
Lemma run_outcome (env : Env) (t : BuildThread) :
  exists msgs,
    run env t
    = map log_signal msgs ++ [finished_signal (succeeded env t)].
Proof.
  rewrite run_eq. unfold succeeded.
  destruct (Popen env (popen_args env t)) as [e|p].
  - exists (header env t ++ [u "执行异常: " ++ message e]).
    rewrite map_app, <- app_assoc. reflexivity.
  - destruct (stdout_raises p) as [e|].
    + exists (header env t ++ map rstrip (stdout p)
              ++ [u "执行异常: " ++ message e]).
      rewrite !map_app, map_map, <- !app_assoc. reflexivity.
    + unfold verdict. destruct (returncode p =? 0)%Z.
      * exists (header env t ++ map rstrip (stdout p)
                ++ [times (u "-") 50; u "打包成功!"]).
        rewrite !map_app, map_map, <- !app_assoc. reflexivity.
      * exists (header env t ++ map rstrip (stdout p)
                ++ [times (u "-") 50; u "打包失败"]).
        rewrite !map_app, map_map, <- !app_assoc. reflexivity.
Qed.

Lemma succeeded_exited_zero (env : Env) (t : BuildThread) :
  succeeded env t = true <-> exited_zero env t.
Proof.
  unfold succeeded, exited_zero.
  destruct (Popen env (popen_args env t)) as [e|p].
  - split; [discriminate|]. intros (q & H & _). discriminate H.
  - destruct (stdout_raises p) as [e|] eqn:Hraise.
    + split; [discriminate|]. intros (q & H & Hq & _).
      injection H as <-. congruence.
    + split.
      * intros H. apply Z.eqb_eq in H. exists p. repeat split; assumption.
      * intros (q & H & _ & Hrc). injection H as <-.
        apply Z.eqb_eq, Hrc.
Qed.

(** C4 (as amended): after a build whose subprocess exits with a nonzero
    code no message box is shown.  The run reports failure, and the
    failure is told in the log view only: by the separator and the
    failure line when the output was read to the end, by the line with
    the exception's message when reading the output raised; the progress
    bar is hidden and the pack button enabled again.  No message box
    follows any build that does not succeed, a failed spawn included; the
    message box that follows a build is the question after a successful
    one. *)
Theorem failure_is_logged (env : Env) (self : BuildThread)
    (reply : bool) (w : PyPackerWindow) :
  (forall p, Popen env (popen_args env self) = inr p ->
     returncode p <> 0%Z ->
     finished_values (run env self) = [false]
     /\ shown (deliver_all env reply (run env self) w) = shown w
     /\ log_text (deliver_all env reply (run env self) w)
        = log_text w ++ header env self ++ map rstrip (stdout p)
          ++ match stdout_raises p with
             | None => [times (u "-") 50; u "打包失败"]
             | Some e => [u "执行异常: " ++ message e]
             end
     /\ pack_btn (deliver_all env reply (run env self) w) = true
     /\ progress_visible (deliver_all env reply (run env self) w) = false)
  /\ (~ exited_zero env self ->
      shown (deliver_all env reply (run env self) w) = shown w)
  /\ (exited_zero env self ->
      current_script w <> None ->
      shown (deliver_all env reply (run env self) w)
      = shown w ++ [{| kind := Question; title := u "完成";
                       body := u "打包完成，是否打开输出目录？" |}]).
Proof.
  split; [|split].
  - intros p Hp Hrc. apply Z.eqb_neq in Hrc.
    assert (Hrun : run env self
              = map log_signal
                  (header env self ++ map rstrip (stdout p)
                   ++ match stdout_raises p with
                      | None => [times (u "-") 50; u "打包失败"]
                      | Some e => [u "执行异常: " ++ message e]
                      end)
                ++ [finished_signal false]).
    { rewrite run_eq, Hp. unfold verdict. rewrite Hrc.
      destruct (stdout_raises p);
        rewrite !map_app, map_map, <- !app_assoc; reflexivity. }
    split.
    + rewrite finished_values_run, Hp, Hrc.
      destruct (stdout_raises p); reflexivity.
    + rewrite Hrun, deliver_all_app, deliver_logs.
      do 2 (simpl; rewrite <- ?app_assoc). repeat split; reflexivity.
  - intros Hfail.
    destruct (run_outcome env self) as [msgs ->].
    destruct (succeeded env self) eqn:Hs.
    + exfalso. apply Hfail, succeeded_exited_zero, Hs.
    + rewrite deliver_all_app, deliver_logs. reflexivity.
  - intros Hzero Hscript.
    destruct (run_outcome env self) as [msgs ->].
    rewrite (proj2 (succeeded_exited_zero env self) Hzero).
    rewrite deliver_all_app, deliver_logs.
    destruct (current_script w) as [script|] eqn:Hcur; [|contradiction].
    simpl. unfold on_pack_finished. simpl. rewrite Hcur.
    destruct reply; [rewrite open_folder_shown|]; reflexivity.
Qed.

Lemma failure_is_logged_witness :
  Popen Scenario.failing
        (popen_args Scenario.failing Scenario.folder_thread)
  = Sample.exits [u "error"] 1
  /\ shown (deliver_all Scenario.failing true
              (run Scenario.failing Scenario.folder_thread)
              (init Scenario.failing))
     = []
  /\ log_text (deliver_all Scenario.failing true
                 (run Scenario.failing Scenario.folder_thread)
                 (init Scenario.failing))
     = header Scenario.failing Scenario.folder_thread
       ++ [u "error"; times (u "-") 50; u "打包失败"].
Proof.
  split; [reflexivity|].
  destruct (proj1 (failure_is_logged Scenario.failing
                     Scenario.folder_thread true (init Scenario.failing))
              _ eq_refl) as (_ & Hshown & Hlog & _).
  - simpl. discriminate.
  - split; [exact Hshown|exact Hlog].
Defined.

(** C4, as stated, fails: the build of [app.py] exits with code 1, the
    thread reports failure, and the window has shown no message box. *)
Lemma failed_build_shows_no_box :
  option_map (fun t => Popen Scenario.failing (popen_args Scenario.failing t))
    (build_thread
       (exec Scenario.failing [BrowseFile Sample.app_py; ClickPack]
             (init Scenario.failing)))
  = Some (Sample.exits [u "error"] 1)
  /\ shown Scenario.failed_build = []
  /\ ~ (exists box, In box (shown Scenario.failed_build)).
Proof.
  assert (H : shown Scenario.failed_build = [])
    by (vm_compute; reflexivity).
  split; [vm_compute; reflexivity|split; [exact H|]].
  intros [box Hin]. rewrite H in Hin. exact Hin.
Qed.

(** ** Threads *)

Lemma on_file_dropped_threads (env : Env) (file_path : str)
    (w : PyPackerWindow) :
  started (on_file_dropped env file_path w) = started w
  /\ install_btn (on_file_dropped env file_path w) = install_btn w.
Proof.
  unfold on_file_dropped.
  destruct (os_path_exists env file_path || endswith file_path (u ".py"));
    split; reflexivity.
Qed.

Lemma dropEvent_threads (env : Env) (urls : list QUrl)
    (w : PyPackerWindow) :
  started (dropEvent env urls w) = started w
  /\ install_btn (dropEvent env urls w) = install_btn w.
Proof.
  rewrite dropEvent_find.
  destruct (find is_py urls); [apply on_file_dropped_threads|].
  split; reflexivity.
Qed.

Lemma open_folder_threads (env : Env) (path : str) (w : PyPackerWindow) :
  started (open_folder env path w) = started w
  /\ install_btn (open_folder env path w) = install_btn w.
Proof.
  unfold open_folder.
  destruct (str_eqb (sys_platform env) (u "win32")).
  - destruct (os_startfile env path); split; reflexivity.
  - destruct (subprocess_run env [u "xdg-open"; path]); split; reflexivity.
Qed.

Lemma deliver_threads (env : Env) (reply : bool) (s : Signal)
    (w : PyPackerWindow) :
  started (deliver env reply s w) = started w
  /\ install_btn (deliver env reply s w) = install_btn w.
Proof.
  destruct s as [m|success]; [split; reflexivity|].
  unfold deliver, on_pack_finished.
  destruct success; [|split; reflexivity].
  simpl. destruct (current_script w); [|split; reflexivity].
  destruct reply; [|split; reflexivity].
  match goal with
  | |- context [open_folder env ?p ?w'] =>
    destruct (open_folder_threads env p w') as [-> ->]
  end.
  split; reflexivity.
Qed.

Lemma install_task_threads (env : Env) (w : PyPackerWindow) :
  started (install_task env w) = started w
  /\ (install_btn w = None -> install_btn (install_task env w) = None).
Proof.
  unfold install_task.
  destruct (subprocess_run env _) as [e|rc];
    [|destruct (rc =? 0)%Z]; simpl;
    (split; [reflexivity|intros ->; reflexivity]).
Qed.

Lemma start_pack_install_btn (env : Env) (w : PyPackerWindow) :
  install_btn (start_pack env w) = install_btn w.
Proof.
  unfold start_pack.
  destruct (script_selected w); [|reflexivity].
  destruct (pyinstaller_available w); [|reflexivity].
  destruct (os_path_exists env s); reflexivity.
Qed.

(** What one event does to the list of started threads: only a click on
    the pack button adds a build thread, only a click on an existing
    install button adds an install thread. *)
Lemma step_threads (env : Env) (ev : Event) (w : PyPackerWindow) :
  (install_btn w = None -> install_btn (step env ev w) = None)
  /\ (started (step env ev w) = started w
      \/ (ev = ClickPack
          /\ exists t, started (step env ev w) = started w ++ [Build t])
      \/ (ev = ClickInstall
          /\ install_btn w <> None
          /\ started (step env ev w) = started w ++ [InstallTask])).
Proof.
  destruct ev; cbn [step].
  - destruct (dropEvent_threads env urls w) as [-> ->]. tauto.
  - unfold browse_file. destruct (truthy chosen); [|tauto].
    destruct (on_file_dropped_threads env chosen w) as [-> ->]. tauto.
  - unfold browse_icon. destruct (truthy chosen); simpl; tauto.
  - tauto.
  - tauto.
  - destruct (pack_btn w); [|tauto].
    rewrite start_pack_install_btn. split; [tauto|].
    destruct (start_pack_started_cases env w) as [H|H]; [now left|].
    right. left. split; [reflexivity|exact H].
  - destruct (install_btn w) as [btn|] eqn:Hbtn; [|tauto].
    split; [discriminate|].
    destruct (enabled btn && negb (hidden btn)); [|now left].
    right. right. split; [reflexivity|]. split; [discriminate|reflexivity].
  - destruct (install_task_threads env w) as [-> H]. tauto.
  - destruct (deliver_threads env reply s w) as [-> ->]. tauto.
Qed.


Lemma installs_app (a b : list Started) :
  installs (a ++ b) = (installs a + installs b)%nat.
Proof. unfold installs. rewrite filter_app, length_app. reflexivity. Qed.






(** * Further properties of the handlers *)

(** ** The life of a build *)

(** Every run ends with its one [finished_signal], whatever the
    subprocess does. *)
Lemma run_ends_finished (env : Env) (t : BuildThread) :
  exists msgs b, run env t = map log_signal msgs ++ [finished_signal b].
Proof.
  destruct (Popen env (popen_args env t)) as [e|p] eqn:Hp.
  - rewrite run_eq, Hp.
    exists (header env t ++ [u "执行异常: " ++ message e]), false.
    rewrite map_app, <- app_assoc. reflexivity.
  - destruct (run_shape env t p Hp) as (footer & b & H).
    eexists. exists b. exact H.
Qed.

Lemma open_folder_controls (env : Env) (path : str) (w : PyPackerWindow) :
  pack_btn (open_folder env path w) = pack_btn w
  /\ progress_visible (open_folder env path w) = progress_visible w
  /\ progress_range (open_folder env path w) = progress_range w.
Proof.
  unfold open_folder.
  destruct (str_eqb (sys_platform env) (u "win32")).
  - destruct (os_startfile env path); repeat split; reflexivity.
  - destruct (subprocess_run env [u "xdg-open"; path]);
      repeat split; reflexivity.
Qed.

Lemma on_pack_finished_controls (env : Env) (success reply : bool)
    (w : PyPackerWindow) :
  pack_btn (on_pack_finished env success reply w) = true
  /\ progress_visible (on_pack_finished env success reply w) = false
  /\ progress_range (on_pack_finished env success reply w) = (0, 100)%Z.
Proof.
  unfold on_pack_finished.
  destruct success; [|repeat split; reflexivity].
  simpl. destruct (current_script w); [|repeat split; reflexivity].
  destruct reply; [|repeat split; reflexivity].
  match goal with
  | |- context [open_folder env ?p ?w'] =>
    destruct (open_folder_controls env p w') as (-> & -> & ->)
  end.
  repeat split; reflexivity.
Qed.

(** X1: whatever the subprocess does (it cannot be spawned, its output
    cannot be read, it exits with any code), once the signals of the
    build thread have reached the window the pack button is enabled
    again, the progress bar is hidden and its range is 0 to 100: the
    window never stays locked by a build. *)
Theorem window_released_after_build (env : Env) (reply : bool)
    (t : BuildThread) (w : PyPackerWindow) :
  pack_btn (deliver_all env reply (run env t) w) = true
  /\ progress_visible (deliver_all env reply (run env t) w) = false
  /\ progress_range (deliver_all env reply (run env t) w) = (0, 100)%Z.
Proof.
  destruct (run_ends_finished env t) as (msgs & b & ->).
  rewrite deliver_all_app, deliver_logs.
  change (deliver_all env reply [finished_signal b] ?x)
    with (on_pack_finished env b reply x).
  apply on_pack_finished_controls.
Qed.

(** [start_pack] once it has passed its guards. *)
Lemma start_pack_passes (env : Env) (w : PyPackerWindow) (script : str) :
  script_selected w = Some script ->
  pyinstaller_available w = true ->
  os_path_exists env script = true ->
  start_pack env w =
    let t := {| script_path := script;
                output_folder :=
                  os_path_join env
                    (os_path_dirname env (os_path_abspath env script))
                    (u "输出");
                onefile := onefile_check w;
                noconsole := noconsole_check w;
                icon_path := or_None (icon_edit w) |} in
    start (Build t)
      (set_build_thread
         (progress_setRange 0 0
            (progress_setVisible true
               (pack_btn_setEnabled false (log_text_clear w))))
         (Some t)).
Proof.
  intros Hsel Hav Hex. unfold start_pack.
  rewrite Hsel, Hav, Hex. reflexivity.
Qed.

(** X2: a call of [start_pack] that starts a build empties the log view,
    shows the busy progress bar, remembers the thread and disables the
    pack button, so that a further click on the pack button is ignored
    and starts no second build. *)
Theorem pack_button_locked_by_build (env : Env) (w : PyPackerWindow)
    (t : BuildThread) :
  started (start_pack env w) = started w ++ [Build t] ->
  pack_btn (start_pack env w) = false
  /\ progress_visible (start_pack env w) = true
  /\ progress_range (start_pack env w) = (0, 0)%Z
  /\ log_text (start_pack env w) = []
  /\ build_thread (start_pack env w) = Some t
  /\ shown (start_pack env w) = shown w
  /\ step env ClickPack (start_pack env w) = start_pack env w.
Proof.
  intros H. apply start_pack_started in H.
  destruct H as (script & Hsel & Hav & Hex & ->).
  rewrite (start_pack_passes env w script Hsel Hav Hex).
  repeat split; reflexivity.
Qed.

Lemma pack_button_locked_by_build_witness :
  started (start_pack Scenario.quiet Scenario.folder_ready)
  = started Scenario.folder_ready ++ [Build Scenario.folder_thread]
  /\ step Scenario.quiet ClickPack
       (start_pack Scenario.quiet Scenario.folder_ready)
     = start_pack Scenario.quiet Scenario.folder_ready.
Proof.
  assert (H : started (start_pack Scenario.quiet Scenario.folder_ready)
              = started Scenario.folder_ready
                ++ [Build Scenario.folder_thread])
    by (vm_compute; reflexivity).
  split; [exact H|].
  apply (pack_button_locked_by_build Scenario.quiet Scenario.folder_ready
           Scenario.folder_thread H).
Defined.

(** X3: every call of [start_pack] does exactly one of two things: it
    starts one thread or it shows one message box; and it never touches
    the selected script, the icon field, the two check boxes or what is
    known about PyInstaller. *)
Theorem start_pack_one_outcome (env : Env) (w : PyPackerWindow) :
  ((started (start_pack env w) = started w
    /\ exists box, shown (start_pack env w) = shown w ++ [box])
   \/ (shown (start_pack env w) = shown w
       /\ exists t, started (start_pack env w) = started w ++ [Build t]))
  /\ current_script (start_pack env w) = current_script w
  /\ path_edit (start_pack env w) = path_edit w
  /\ icon_edit (start_pack env w) = icon_edit w
  /\ onefile_check (start_pack env w) = onefile_check w
  /\ noconsole_check (start_pack env w) = noconsole_check w
  /\ pyinstaller_available (start_pack env w) = pyinstaller_available w.
Proof.
  unfold start_pack.
  destruct (script_selected w) as [script|].
  - destruct (pyinstaller_available w) eqn:Hav; simpl.
    + destruct (os_path_exists env script); simpl.
      * split; [right; split; [reflexivity|eexists; reflexivity]|].
        repeat split; auto.
      * split; [left; split; [reflexivity|eexists; reflexivity]|].
        repeat split; auto.
    + split; [left; split; [reflexivity|eexists; reflexivity]|].
      repeat split; auto.
  - simpl. split; [left; split; [reflexivity|eexists; reflexivity]|].
    repeat split; auto.
Qed.

Lemma open_folder_opens (env : Env) (path : str) (w : PyPackerWindow) :
  opens env path ->
  open_folder env path w = set_opened w (opened w ++ [path]).
Proof.
  unfold opens, open_folder.
  destruct (str_eqb (sys_platform env) (u "win32")).
  - intros ->. reflexivity.
  - intros [rc ->]. reflexivity.
Qed.

(** [on_pack_finished] after a failure, or when the user answers No. *)
Lemma on_pack_finished_quiet (env : Env) (success : bool)
    (w : PyPackerWindow) :
  log_text (on_pack_finished env success false w) = log_text w
  /\ opened (on_pack_finished env success false w) = opened w.
Proof.
  unfold on_pack_finished. destruct success; [|split; reflexivity].
  simpl. destruct (current_script w); split; reflexivity.
Qed.

Lemma open_folder_log_text (env : Env) (path : str) (w : PyPackerWindow) :
  log_text (open_folder env path w)
  = log_text w ++ match open_error env path with
                  | Some e => [u "无法打开: " ++ message e]
                  | None => []
                  end.
Proof.
  unfold open_folder, open_error.
  destruct (str_eqb (sys_platform env) (u "win32")).
  - destruct (os_startfile env path);
      [reflexivity|simpl; now rewrite app_nil_r].
  - destruct (subprocess_run env [u "xdg-open"; path]);
      [reflexivity|simpl; now rewrite app_nil_r].
Qed.

(** X4: the log view shows the current build only.  After a build that
    [start_pack] started has run, the messages appended to the log view
    are exactly the log messages of that run, in order; the one line
    that can follow them is the report that the output folder could not
    be opened, and it follows only when the build succeeded, the user
    answered Yes and opening the folder raised.  What was appended
    before the build is gone. *)
Theorem log_view_shows_current_build (env : Env) (w : PyPackerWindow)
    (t : BuildThread) :
  started (start_pack env w) = started w ++ [Build t] ->
  log_text (build_runs env false (start_pack env w))
  = log_messages (run env t)
  /\ log_text (build_runs env true (start_pack env w))
     = log_messages (run env t)
       ++ (if succeeded env t then
             match open_error env (output_folder t) with
             | Some e => [u "无法打开: " ++ message e]
             | None => []
             end
           else []).
Proof.
  intros H. apply start_pack_started in H.
  destruct H as (script & Hsel & Hav & Hex & Ht).
  pose proof (script_selected_current w script Hsel) as Hcur.
  assert (Hout : output_folder t = output_path env script)
    by (rewrite Ht; reflexivity).
  rewrite (start_pack_passes env w script Hsel Hav Hex).
  rewrite <- Ht. unfold build_runs. cbn zeta.
  change (build_thread (start _ (set_build_thread _ (Some t))))
    with (Some t).
  cbv beta iota.
  destruct (run_outcome env t) as [msgs ->].
  rewrite log_messages_logs.
  split.
  - rewrite deliver_all_app, deliver_logs.
    change (deliver_all env false [finished_signal ?b] ?x)
      with (on_pack_finished env b false x).
    rewrite (proj1 (on_pack_finished_quiet env _ _)). reflexivity.
  - rewrite deliver_all_app, deliver_logs.
    change (deliver_all env true [finished_signal ?b] ?x)
      with (on_pack_finished env b true x).
    unfold on_pack_finished.
    destruct (succeeded env t); simpl;
      [|symmetry; apply app_nil_r].
    rewrite Hcur. fold (output_path env script). rewrite <- Hout.
    rewrite open_folder_log_text. reflexivity.
Qed.

Lemma log_view_shows_current_build_witness :
  started (start_pack Scenario.quiet Scenario.folder_ready)
  = started Scenario.folder_ready ++ [Build Scenario.folder_thread]
  /\ log_text Scenario.folder_ready = [u "已选择: " ++ Sample.app_py]
  /\ log_text (build_runs Scenario.quiet false
                 (start_pack Scenario.quiet Scenario.folder_ready))
     = log_messages (run Scenario.quiet Scenario.folder_thread).
Proof.
  assert (H : started (start_pack Scenario.quiet Scenario.folder_ready)
              = started Scenario.folder_ready
                ++ [Build Scenario.folder_thread])
    by (vm_compute; reflexivity).
  split; [exact H|split; [vm_compute; reflexivity|]].
  exact (proj1 (log_view_shows_current_build Scenario.quiet
                  Scenario.folder_ready Scenario.folder_thread H)).
Defined.

(** X5: when a build succeeds and the user answers Yes, the folder
    opened is the output folder of the script that is selected at that
    moment; for a build started by [start_pack] whose script is still the
    selected one, it is the folder passed to PyInstaller as
    [--distpath].  When the user answers No nothing is opened. *)
Theorem opened_folder_is_distpath (env : Env) (w : PyPackerWindow)
    (t : BuildThread) :
  started (start_pack env w) = started w ++ [Build t] ->
  exited_zero env t ->
  opens env (output_folder t) ->
  opened (build_runs env true (start_pack env w))
  = opened w ++ [output_folder t]
  /\ nth_error (command env t) 4 = Some (output_folder t)
  /\ opened (build_runs env false (start_pack env w)) = opened w
  /\ shown (build_runs env true (start_pack env w))
     = shown w ++ [{| kind := Question; title := u "完成";
                      body := u "打包完成，是否打开输出目录？" |}].
Proof.
  intros H (p & Hp & Hraise & Hrc) Hopen.
  apply start_pack_started in H.
  destruct H as (script & Hsel & Hav & Hex & Ht).
  pose proof (script_selected_current w script Hsel) as Hcur.
  rewrite (start_pack_passes env w script Hsel Hav Hex).
  rewrite <- Ht. unfold build_runs. cbn zeta.
  change (build_thread (start _ (set_build_thread _ (Some t))))
    with (Some t).
  assert (Hrun : run env t
            = map log_signal (header env t ++ map rstrip (stdout p)
                              ++ [times (u "-") 50; u "打包成功!"])
              ++ [finished_signal true]).
  { rewrite run_eq, Hp, Hraise. unfold verdict. rewrite Hrc.
    rewrite !map_app, map_map, <- !app_assoc. reflexivity. }
  cbv beta iota. rewrite Hrun.
  assert (Hout : output_folder t = output_path env script)
    by (rewrite Ht; reflexivity).
  split; [|split; [|split]].
  - rewrite deliver_all_app, deliver_logs.
    change (deliver_all env true [finished_signal true] ?x)
      with (on_pack_finished env true true x).
    unfold on_pack_finished. simpl. rewrite Hcur.
    fold (output_path env script). rewrite <- Hout.
    rewrite open_folder_opens by exact Hopen. reflexivity.
  - rewrite command_eq. reflexivity.
  - rewrite deliver_all_app, deliver_logs.
    change (deliver_all env false [finished_signal true] ?x)
      with (on_pack_finished env true false x).
    rewrite (proj2 (on_pack_finished_quiet env true _)). reflexivity.
  - rewrite deliver_all_app, deliver_logs.
    change (deliver_all env true [finished_signal true] ?x)
      with (on_pack_finished env true true x).
    unfold on_pack_finished. simpl. rewrite Hcur.
    rewrite open_folder_shown. reflexivity.
Qed.

Lemma opened_folder_is_distpath_witness :
  started (start_pack Scenario.quiet Scenario.folder_ready)
  = started Scenario.folder_ready ++ [Build Scenario.folder_thread]
  /\ exited_zero Scenario.quiet Scenario.folder_thread
  /\ opens Scenario.quiet (u "/home/user/输出")
  /\ opened (build_runs Scenario.quiet true
               (start_pack Scenario.quiet Scenario.folder_ready))
     = [u "/home/user/输出"].
Proof.
  assert (H : started (start_pack Scenario.quiet Scenario.folder_ready)
              = started Scenario.folder_ready
                ++ [Build Scenario.folder_thread])
    by (vm_compute; reflexivity).
  assert (Hz : exited_zero Scenario.quiet Scenario.folder_thread).
  { eexists. split; [reflexivity|split; reflexivity]. }
  assert (Ho : opens Scenario.quiet
                 (output_folder Scenario.folder_thread)).
  { unfold opens. simpl. eexists. reflexivity. }
  split; [exact H|split; [exact Hz|split; [exact Ho|]]].
  exact (proj1 (opened_folder_is_distpath Scenario.quiet
                  Scenario.folder_ready Scenario.folder_thread H Hz Ho)).
Defined.

(** ** Invariants of a session *)

(** Case analysis on an event and on every test its handler makes. *)
Ltac step_cases env ev w :=
  destruct ev as [urls|chosen|chosen|checked|checked| | | |s reply];
  cbn [step];
  [ rewrite dropEvent_find; destruct (find is_py urls) as [url|] eqn:?;
    [unfold on_file_dropped;
     destruct (os_path_exists env (toLocalFile url)
               || endswith (toLocalFile url) (u ".py")) eqn:?|]
  | unfold browse_file; destruct (truthy chosen) eqn:?;
    [unfold on_file_dropped;
     destruct (os_path_exists env chosen || endswith chosen (u ".py"))
       eqn:?|]
  | unfold browse_icon; destruct (truthy chosen) eqn:?
  |
  |
  | destruct (pack_btn w) eqn:?;
    [unfold start_pack; destruct (script_selected w) as [script|] eqn:?;
     [destruct (pyinstaller_available w) eqn:?;
      [destruct (os_path_exists env script) eqn:?|]|]|]
  | destruct (install_btn w) as [btn|] eqn:?;
    [destruct (enabled btn && negb (hidden btn)) eqn:?|]
  | unfold install_task;
    destruct (subprocess_run env _) as [e|rc] eqn:?;
    [|destruct (rc =? 0)%Z eqn:?]
  | destruct s as [m|success];
    [|unfold deliver, on_pack_finished; destruct success;
      [cbn; destruct (current_script w) as [script|] eqn:?;
       [destruct reply;
        [unfold open_folder;
         destruct (str_eqb (sys_platform env) (u "win32"));
         [destruct (os_startfile env _)
         |destruct (subprocess_run env _)]|]|]|]] ].

Lemma truthy_nonempty (s : str) : truthy s = true -> s <> [].
Proof. destruct s; [discriminate|discriminate]. Qed.

Lemma step_selection (env : Env) (ev : Event) (w : PyPackerWindow) :
  selection_shown w -> selection_shown (step env ev w).
Proof.
  unfold selection_shown. intros H.
  step_cases env ev w; cbn; try exact H;
    try (match goal with
         | E : current_script w = _ |- _ => rewrite E; exact H
         end).
  - split; [|reflexivity]. apply truthy_nonempty, endswith_py_truthy.
    apply find_some in Heqo. apply Heqo.
  - split; [|reflexivity]. apply truthy_nonempty. assumption.
Qed.

Lemma exec_invariant (env : Env) (P : PyPackerWindow -> Prop) :
  (forall ev w, P w -> P (step env ev w)) ->
  forall evs w, P w -> P (exec env evs w).
Proof.
  intros Hstep evs. induction evs as [|ev evs IH]; intros w Hw.
  - exact Hw.
  - apply IH, Hstep, Hw.
Qed.

Lemma start_pack_selection (env : Env) (w : PyPackerWindow) :
  current_script (start_pack env w) = current_script w
  /\ path_edit (start_pack env w) = path_edit w.
Proof.
  unfold start_pack.
  destruct (script_selected w); [|split; reflexivity].
  destruct (pyinstaller_available w); [|split; reflexivity].
  destruct (os_path_exists env s); split; reflexivity.
Qed.

Lemma init_selection (env : Env) : selection_shown (init env).
Proof.
  unfold selection_shown, init, _handle_args.
  destruct (sys_argv env) as [|arg0 [|arg args]]; try reflexivity.
  destruct (endswith _ (u ".py") && os_path_exists env _) eqn:Hok;
    [|reflexivity].
  match goal with
  | |- context [start_pack env ?x] =>
    destruct (start_pack_selection env x) as [-> ->]
  end.
  simpl. split; [|reflexivity].
  apply andb_prop in Hok. destruct Hok as [Hpy _].
  apply truthy_nonempty, endswith_py_truthy, Hpy.
Qed.

Lemma step_keeps_selected (env : Env) (ev : Event) (w : PyPackerWindow) :
  current_script w <> None -> current_script (step env ev w) <> None.
Proof.
  intros H.
  step_cases env ev w; cbn; try exact H; try discriminate;
    try (match goal with
         | E : current_script w = _ |- _ => rewrite E; exact H
         end).
Qed.

(** X6: throughout a session the path field shows the selected script:
    it holds the script's path when one is selected, and is empty
    otherwise; the selected script is never the empty string; and a
    script, once selected, is never deselected (it can only be replaced
    by another one). *)
Theorem selection_is_shown (env : Env) (evs : list Event) :
  (path_edit (exec env evs (init env)) =
     match current_script (exec env evs (init env)) with
     | Some s => s
     | None => []
     end)
  /\ current_script (exec env evs (init env)) <> Some []
  /\ (forall w, current_script w <> None ->
        current_script (exec env evs w) <> None).
Proof.
  pose proof (exec_invariant env selection_shown (step_selection env)
                evs (init env) (init_selection env)) as H.
  unfold selection_shown in H.
  split; [|split].
  - destruct (current_script (exec env evs (init env)));
      [apply H|exact H].
  - destruct (current_script (exec env evs (init env))) as [s|];
      [|discriminate].
    intros E. injection E as ->. now apply (proj1 H).
  - intros w. apply (exec_invariant env (fun w => current_script w <> None)
                       (step_keeps_selected env)).
Qed.

Lemma selection_is_shown_witness :
  current_script Scenario.folder_ready <> None
  /\ current_script
       (exec Scenario.quiet
          [Drop [{| toLocalFile := u "/home/user/notes.txt" |}];
           BrowseFile []; ClickPack]
          Scenario.folder_ready)
     <> None.
Proof.
  assert (H : current_script Scenario.folder_ready <> None)
    by (vm_compute; discriminate).
  split; [exact H|].
  exact (proj2 (proj2 (selection_is_shown Scenario.quiet
           [Drop [{| toLocalFile := u "/home/user/notes.txt" |}];
            BrowseFile []; ClickPack])) Scenario.folder_ready H).
Defined.

(** ** The icon *)

Lemma step_icon (env : Env) (ev : Event) (w : PyPackerWindow) :
  icon_edit (step env ev w) = chosen_icon [ev] (icon_edit w).
Proof.
  unfold chosen_icon.
  step_cases env ev w; cbn; try reflexivity;
    match goal with
    | E : truthy _ = _ |- _ => rewrite E; reflexivity
    end.
Qed.

Lemma chosen_icon_nonempty (evs : list Event) (icon : str) :
  icon <> [] -> chosen_icon evs icon <> [].
Proof.
  revert icon. induction evs as [|ev evs IH]; intros icon H; [exact H|].
  unfold chosen_icon. simpl. apply IH.
  destruct ev; try exact H.
  destruct (truthy chosen) eqn:Hc; [|exact H].
  apply truthy_nonempty, Hc.
Qed.

(** X7: the icon field holds the last icon chosen in the icon dialog; a
    cancelled dialog and every other event leave it alone, so an icon,
    once chosen, cannot be removed again during the session. *)
Theorem icon_is_last_choice (env : Env) (evs : list Event)
    (w : PyPackerWindow) :
  icon_edit (exec env evs w) = chosen_icon evs (icon_edit w)
  /\ (icon_edit w <> [] -> icon_edit (exec env evs w) <> []).
Proof.
  assert (H : icon_edit (exec env evs w) = chosen_icon evs (icon_edit w)).
  { revert w. induction evs as [|ev evs IH]; intros w; [reflexivity|].
    change (exec env (ev :: evs) w) with (exec env evs (step env ev w)).
    rewrite IH, step_icon. reflexivity. }
  split; [exact H|].
  intros Hne. rewrite H. apply chosen_icon_nonempty, Hne.
Qed.

Lemma icon_is_last_choice_witness :
  icon_edit (browse_icon (u "/home/user/app.ico") (init Scenario.quiet))
  <> []
  /\ icon_edit
       (exec Scenario.quiet [BrowseIcon []; BrowseFile Sample.app_py]
          (browse_icon (u "/home/user/app.ico") (init Scenario.quiet)))
     <> [].
Proof.
  assert (H : icon_edit (browse_icon (u "/home/user/app.ico")
                           (init Scenario.quiet)) <> [])
    by (vm_compute; discriminate).
  split; [exact H|].
  exact (proj2 (icon_is_last_choice Scenario.quiet
                  [BrowseIcon []; BrowseFile Sample.app_py]
                  (browse_icon (u "/home/user/app.ico")
                     (init Scenario.quiet))) H).
Defined.

Lemma or_None_nonempty (s : str) : s <> [] -> or_None s = Some s.
Proof. destruct s; [contradiction|reflexivity]. Qed.

(** X8: an icon chosen in the icon dialog reaches the build: the thread
    that [start_pack] starts carries it, and the command holds [--icon]
    and the path right before the script path when the icon file exists
    at that moment; when it does not exist the build goes on without an
    icon and without a message.  With an empty icon field the thread has
    no icon path and the command no icon arguments. *)
Theorem chosen_icon_reaches_command (env : Env) (w : PyPackerWindow)
    (t : BuildThread) :
  started (start_pack env w) = started w ++ [Build t] ->
  (forall p, icon_edit w = p -> p <> [] ->
     icon_path t = Some p
     /\ command env t =
          base env t
          ++ [if onefile t then u "-F" else u "-D"]
          ++ (if noconsole t then [u "-w"] else [])
          ++ (if os_path_exists env p then [u "--icon"; p] else [])
          ++ [script_path t])
  /\ (icon_edit w = [] ->
      icon_path t = None
      /\ command env t =
           base env t
           ++ [if onefile t then u "-F" else u "-D"]
           ++ (if noconsole t then [u "-w"] else [])
           ++ [script_path t])
  /\ shown (start_pack env w) = shown w.
Proof.
  intros H.
  assert (Hshown : shown (start_pack env w) = shown w).
  { apply start_pack_started in H.
    destruct H as (script & Hsel & Hav & Hex & _).
    rewrite (start_pack_passes env w script Hsel Hav Hex). reflexivity. }
  apply start_pack_started in H.
  destruct H as (script & _ & _ & _ & Ht).
  assert (Hicon : icon_path t = or_None (icon_edit w))
    by (rewrite Ht; reflexivity).
  split; [|split; [|exact Hshown]].
  - intros p Hp Hne. rewrite Hp, (or_None_nonempty p Hne) in Hicon.
    split; [exact Hicon|].
    rewrite command_eq. unfold icon_args. rewrite Hicon.
    destruct p; [contradiction|reflexivity].
  - intros Hempty. rewrite Hempty in Hicon. simpl in Hicon.
    split; [exact Hicon|].
    rewrite command_eq. unfold icon_args. rewrite Hicon. reflexivity.
Qed.

Lemma chosen_icon_reaches_command_witness :
  started (start_pack Scenario.with_icon Scenario.icon_ready)
  = started Scenario.icon_ready ++ [Build Scenario.icon_thread]
  /\ icon_edit Scenario.icon_ready = u "/home/user/app.ico"
  /\ icon_path Scenario.icon_thread = Some (u "/home/user/app.ico")
  /\ command Scenario.with_icon Scenario.icon_thread
     = base Scenario.with_icon Scenario.icon_thread
       ++ [u "-F"] ++ []
       ++ [u "--icon"; u "/home/user/app.ico"] ++ [Sample.app_py].
Proof.
  assert (H : started (start_pack Scenario.with_icon Scenario.icon_ready)
              = started Scenario.icon_ready
                ++ [Build Scenario.icon_thread])
    by (vm_compute; reflexivity).
  assert (He : icon_edit Scenario.icon_ready = u "/home/user/app.ico")
    by (vm_compute; reflexivity).
  assert (Hne : u "/home/user/app.ico" <> [])
    by (vm_compute; discriminate).
  destruct (proj1 (chosen_icon_reaches_command Scenario.with_icon
                     Scenario.icon_ready Scenario.icon_thread H)
              (u "/home/user/app.ico") He Hne) as [Hicon Hcmd].
  split; [exact H|split; [exact He|split; [exact Hicon|exact Hcmd]]].
Defined.

(** ** Installing PyInstaller *)

Lemma installs_build (l : list Started) (t : BuildThread) :
  installs (l ++ [Build t]) = installs l.
Proof. rewrite installs_app. simpl. apply Nat.add_0_r. Qed.

(** While an invariant keeps the install button from being clicked, no
    install thread is started. *)
Lemma exec_no_install (env : Env) (I : PyPackerWindow -> Prop)
    (evs : list Event) :
  (forall ev w, In ev evs -> I w -> I (step env ev w)) ->
  (forall w b, I w -> install_btn w = Some b ->
     enabled b && negb (hidden b) = false) ->
  forall w, I w ->
    installs (started (exec env evs w)) = installs (started w)
    /\ I (exec env evs w).
Proof.
  intros Hstep Hblocked.
  induction evs as [|ev evs IH]; intros w Hw; [split; [reflexivity|exact Hw]|].
  change (exec env (ev :: evs) w) with (exec env evs (step env ev w)).
  assert (Hnext : I (step env ev w)) by (apply Hstep; [now left|exact Hw]).
  destruct (IH (fun ev' w' Hin => Hstep ev' w' (or_intror Hin))
               (step env ev w) Hnext) as [-> Hfinal].
  split; [|exact Hfinal].
  destruct (step_threads env ev w) as [_ [H|[[_ [t H]]|[Hev [_ H]]]]].
  - rewrite H. reflexivity.
  - rewrite H. apply installs_build.
  - exfalso. subst ev. cbn [step] in H.
    destruct (install_btn w) as [b|] eqn:Hb.
    + rewrite (Hblocked w b Hw Hb) in H. now apply app_one_neq in H.
    + now apply app_one_neq in H.
Qed.

(** The install button is missing or disabled. *)
Lemma step_keeps_disabled (env : Env) (ev : Event) (w : PyPackerWindow) :
  ev <> InstallTaskRuns ->
  (forall b, install_btn w = Some b -> enabled b = false) ->
  forall b, install_btn (step env ev w) = Some b -> enabled b = false.
Proof.
  intros Hev H.
  step_cases env ev w; cbn; try exact H; try contradiction;
    try (intros b' Hb'; apply H; congruence).
  intros b' Hb'. rewrite (H btn eq_refl) in *. discriminate.
Qed.

(** X9: a click on the install button disables it until the install
    thread has run: whatever else happens in between (further clicks on
    the install button included), no second install thread is started. *)
Theorem install_button_clicked_once (env : Env) (evs : list Event)
    (w : PyPackerWindow) :
  install_pending evs ->
  started (install_pyinstaller w) = started w ++ [InstallTask]
  /\ installs (started (exec env evs (install_pyinstaller w)))
     = S (installs (started w)).
Proof.
  intros Hpending. split; [reflexivity|].
  pose (I := fun w' : PyPackerWindow =>
               forall b, install_btn w' = Some b -> enabled b = false).
  destruct (exec_no_install env I evs) with (w := install_pyinstaller w)
    as [-> _].
  - intros ev w' Hin Hw'.
    unfold install_pending in Hpending.
    rewrite Forall_forall in Hpending.
    exact (step_keeps_disabled env ev w' (Hpending ev Hin) Hw').
  - intros w' b Hw' Hb. rewrite (Hw' b Hb). reflexivity.
  - unfold I, install_pyinstaller. cbn.
    destruct (install_btn w) as [btn|]; cbn; intros b' Hb;
      [|discriminate].
    injection Hb as <-. reflexivity.
  - change (started (install_pyinstaller w))
      with (started w ++ [InstallTask]).
    rewrite installs_app. change (installs [InstallTask]) with 1%nat. lia.
Qed.

Lemma install_button_clicked_once_witness :
  install_pending [ClickInstall; BrowseFile Sample.app_py; ClickInstall]
  /\ installs
       (started
          (exec Scenario.bare
             [ClickInstall; BrowseFile Sample.app_py; ClickInstall]
             (install_pyinstaller (init Scenario.bare))))
     = 1%nat.
Proof.
  assert (H : install_pending
                [ClickInstall; BrowseFile Sample.app_py; ClickInstall])
    by (repeat constructor; discriminate).
  split; [exact H|].
  exact (proj2 (install_button_clicked_once Scenario.bare
                  [ClickInstall; BrowseFile Sample.app_py; ClickInstall]
                  (init Scenario.bare) H)).
Defined.

(** PyInstaller is available and the install button, if any, is hidden. *)
Lemma step_keeps_installed (env : Env) (ev : Event) (w : PyPackerWindow) :
  pyinstaller_available w = true
  /\ (forall b, install_btn w = Some b -> hidden b = true) ->
  pyinstaller_available (step env ev w) = true
  /\ (forall b, install_btn (step env ev w) = Some b -> hidden b = true).
Proof.
  step_cases env ev w; cbn; intros [Hav Hhid];
    first
      [ split; [first [exact Hav|assumption|reflexivity]
               |first [exact Hhid|assumption]]
      | discriminate Hav
      | split; [first [exact Hav|assumption]|];
        intros b' Hb'; apply Hhid; congruence
      | split; [first [exact Hav|assumption|reflexivity]|];
        intros b' Hb'; destruct (install_btn w) as [b0|];
        cbn in Hb'; [|discriminate Hb']; injection Hb' as <-; cbn;
        first [reflexivity|exact (Hhid b0 eq_refl)]
      | exfalso;
        match goal with
        | E : enabled ?b && negb (hidden ?b) = true |- _ =>
          rewrite (Hhid b eq_refl), andb_false_r in E; discriminate E
        end ].
Qed.

(** X10: once [install_task] has installed PyInstaller (pip exited with
    code 0), PyInstaller counts as available for the rest of the session
    and the install button stays hidden, so no install thread is ever
    started again. *)
Theorem installed_for_good (env : Env) (evs : list Event)
    (w : PyPackerWindow) :
  subprocess_run env (pip_command env) = inr 0%Z ->
  pyinstaller_available (exec env evs (install_task env w)) = true
  /\ installs (started (exec env evs (install_task env w)))
     = installs (started w)
  /\ shown (install_task env w)
     = shown w ++ [{| kind := Information; title := u "完成";
                      body := u "PyInstaller 安装成功" |}].
Proof.
  intros Hpip.
  pose (J := fun w' : PyPackerWindow =>
               pyinstaller_available w' = true
               /\ (forall b, install_btn w' = Some b -> hidden b = true)).
  assert (Hdone : install_task env w
            = progress_setVisible false
                (progress_setRange 0 100
                   (QMessageBox Information (u "完成")
                      (u "PyInstaller 安装成功")
                      (install_btn_hide
                         (log (u "安装成功!")
                            (pack_btn_setEnabled true
                               (set_pyinstaller_available w true))))))).
  { unfold install_task. fold (pip_command env). rewrite Hpip.
    reflexivity. }
  assert (HJ : J (install_task env w)).
  { rewrite Hdone. split; [reflexivity|]. cbn.
    destruct (install_btn w) as [btn|]; cbn; intros b' Hb;
      [|discriminate].
    injection Hb as <-. reflexivity. }
  destruct (exec_no_install env J evs) with (w := install_task env w)
    as [Hcount Hfinal].
  - intros ev w' _ Hw'. exact (step_keeps_installed env ev w' Hw').
  - intros w' b [_ Hw'] Hb. rewrite (Hw' b Hb). apply andb_false_r.
  - exact HJ.
  - split; [exact (proj1 Hfinal)|split].
    + rewrite Hcount, Hdone. reflexivity.
    + rewrite Hdone. reflexivity.
Qed.

Lemma installed_for_good_witness :
  subprocess_run Scenario.bare (pip_command Scenario.bare) = inr 0%Z
  /\ installs
       (started
          (exec Scenario.bare [ClickInstall; ClickInstall]
             (install_task Scenario.bare Scenario.installing)))
     = 1%nat.
Proof.
  assert (H : subprocess_run Scenario.bare (pip_command Scenario.bare)
              = inr 0%Z) by reflexivity.
  split; [exact H|].
  exact (proj1 (proj2 (installed_for_good Scenario.bare
                         [ClickInstall; ClickInstall]
                         Scenario.installing H))).
Defined.

(** X11: a failed installation (pip cannot be run, or exits with a
    nonzero code) shows one error box, hides the progress bar, leaves
    PyInstaller unavailable and the pack button as it was, and enables
    the install button again, so that the next click on it starts a new
    install thread. *)
Theorem failed_install_can_be_retried (env : Env) (w : PyPackerWindow)
    (btn : Button) :
  install_btn w = Some btn ->
  hidden btn = false ->
  pip_fails env ->
  shown (install_task env w)
  = shown w ++ [{| kind := Critical; title := u "错误";
                   body := pip_failure_text env |}]
  /\ pyinstaller_available (install_task env w) = pyinstaller_available w
  /\ pack_btn (install_task env w) = pack_btn w
  /\ progress_visible (install_task env w) = false
  /\ install_btn (install_task env w)
     = Some {| enabled := true; hidden := false |}
  /\ started (step env ClickInstall (install_task env w))
     = started w ++ [InstallTask].
Proof.
  intros Hbtn Hvis Hfail.
  unfold pip_fails, pip_failure_text in *.
  unfold install_task. fold (pip_command env).
  destruct (subprocess_run env (pip_command env)) as [e|rc].
  - cbn. rewrite Hbtn. cbn. rewrite Hvis. repeat split; reflexivity.
  - apply Z.eqb_neq in Hfail. rewrite Hfail.
    cbn. rewrite Hbtn. cbn. rewrite Hvis. repeat split; reflexivity.
Qed.

Lemma failed_install_can_be_retried_witness :
  install_btn (install_pyinstaller (init offline))
  = Some {| enabled := false; hidden := false |}
  /\ pip_fails offline
  /\ started
       (step offline ClickInstall
          (install_task offline (install_pyinstaller (init offline))))
     = [InstallTask; InstallTask].
Proof.
  assert (Hb : install_btn (install_pyinstaller (init offline))
               = Some {| enabled := false; hidden := false |})
    by reflexivity.
  assert (Hf : pip_fails offline) by (vm_compute; discriminate).
  split; [exact Hb|split; [exact Hf|]].
  exact (proj2 (proj2 (proj2 (proj2 (proj2
           (failed_install_can_be_retried offline
              (install_pyinstaller (init offline)) _ Hb eq_refl Hf)))))).
Defined.

(** X12: a successful installation enables the pack button whether or
    not a script is selected; with none selected, the next click on the
    pack button starts nothing and shows the warning to select a script
    first. *)
Theorem pack_enabled_after_install (env : Env) (w : PyPackerWindow) :
  subprocess_run env (pip_command env) = inr 0%Z ->
  pack_btn (install_task env w) = true
  /\ pyinstaller_available (install_task env w) = true
  /\ (script_selected w = None ->
      step env ClickPack (install_task env w)
      = QMessageBox Warning (u "提示") (u "请先选择脚本")
          (install_task env w)
      /\ started (step env ClickPack (install_task env w)) = started w).
Proof.
  intros Hpip. unfold install_task. fold (pip_command env).
  rewrite Hpip. cbn. split; [reflexivity|split; [reflexivity|]].
  intros Hsel. unfold start_pack, script_selected in *. cbn.
  destruct (current_script w) as [s|]; [|split; reflexivity].
  rewrite Hsel. split; reflexivity.
Qed.

Lemma pack_enabled_after_install_witness :
  subprocess_run Scenario.bare (pip_command Scenario.bare) = inr 0%Z
  /\ script_selected Scenario.installing = None
  /\ pack_btn (install_task Scenario.bare Scenario.installing) = true
  /\ started (step Scenario.bare ClickPack
                (install_task Scenario.bare Scenario.installing))
     = [InstallTask].
Proof.
  assert (H : subprocess_run Scenario.bare (pip_command Scenario.bare)
              = inr 0%Z) by reflexivity.
  assert (Hs : script_selected Scenario.installing = None) by reflexivity.
  destruct (pack_enabled_after_install Scenario.bare Scenario.installing H)
    as (Hbtn & _ & Hclick).
  split; [exact H|split; [exact Hs|split; [exact Hbtn|]]].
  exact (proj2 (Hclick Hs)).
Defined.

(** ** Start-up *)

Lemma start_pack_unavailable (env : Env) (w : PyPackerWindow)
    (script : str) :
  script_selected w = Some script ->
  pyinstaller_available w = false ->
  start_pack env w
  = QMessageBox Warning (u "提示") (u "请先安装 PyInstaller") w.
Proof.
  intros Hsel Hav. unfold start_pack. rewrite Hsel, Hav. reflexivity.
Qed.

(** X13: at start-up a script is selected exactly when the second
    element of [sys.argv], without its quotes, ends with [.py] and
    exists.  Then the path field shows it, and a build of it is started
    at once, with the check boxes as they start (onefile, console, no
    icon), when PyInstaller is found; when PyInstaller is not found the
    warning to install it is shown and the pack button is enabled.
    Otherwise nothing is selected, started or shown and the pack button
    is disabled.  The errors for a missing script never appear at
    start-up. *)
Theorem startup_outcome (env : Env) :
  current_script (init env) = startup_script env
  /\ match startup_script env with
     | None =>
       started (init env) = [] /\ shown (init env) = []
       /\ pack_btn (init env) = false /\ path_edit (init env) = []
     | Some p =>
       path_edit (init env) = p
       /\ if _check_pyinstaller env then
            started (init env)
            = [Build {| script_path := p;
                        output_folder := output_path env p;
                        onefile := true;
                        noconsole := false;
                        icon_path := None |}]
            /\ shown (init env) = []
            /\ pack_btn (init env) = false
            /\ progress_visible (init env) = true
          else
            started (init env) = []
            /\ shown (init env)
               = [{| kind := Warning; title := u "提示";
                     body := u "请先安装 PyInstaller" |}]
            /\ pack_btn (init env) = true
     end.
Proof.
  unfold startup_script, init, _handle_args.
  change [squote] with (u "'"). change [dquote] with [34%N].
  destruct (sys_argv env) as [|arg0 [|arg args]];
    try (split; [reflexivity|repeat split; reflexivity]).
  set (p := strip (u "'") (strip [34%N] arg)).
  destruct (endswith p (u ".py") && os_path_exists env p) eqn:Hok;
    [|split; [reflexivity|repeat split; reflexivity]].
  apply andb_prop in Hok. destruct Hok as [Hpy Hex].
  assert (Hsel : forall w, current_script w = Some p ->
                   script_selected w = Some p).
  { intros w Hw. unfold script_selected, or_None.
    rewrite Hw, (endswith_py_truthy p Hpy). reflexivity. }
  destruct (_check_pyinstaller env) eqn:Hcheck.
  - match goal with
    | |- context [start_pack env ?w] =>
      rewrite (start_pack_passes env w p (Hsel w eq_refl) eq_refl Hex)
    end.
    split; [reflexivity|repeat split; reflexivity].
  - match goal with
    | |- context [start_pack env ?w] =>
      rewrite (start_pack_unavailable env w p (Hsel w eq_refl) eq_refl)
    end.
    split; [reflexivity|repeat split; reflexivity].
Qed.

Lemma dropwhile_snoc (d : char -> bool) (c : char) (p : str) :
  d c = true ->
  dropwhile d (p ++ [c]) =
    match dropwhile d p with
    | [] => []
    | x :: r => (x :: r) ++ [c]
    end.
Proof.
  intros Hc. induction p as [|a p IH]; simpl.
  - rewrite Hc. reflexivity.
  - destruct (d a); [exact IH|reflexivity].
Qed.

(** [strip] undoes a pair of characters it strips ... *)
Lemma strip_wrapped (chars : str) (c : char) (p : str) :
  existsb (N.eqb c) chars = true ->
  strip chars (c :: p ++ [c]) = strip chars p.
Proof.
  intros Hc. unfold strip. simpl. rewrite Hc.
  rewrite dropwhile_snoc by exact Hc.
  destruct (dropwhile _ p) as [|x r]; [reflexivity|].
  rewrite rev_app_distr. simpl rev at 1. simpl. rewrite Hc. reflexivity.
Qed.

(** ... and leaves alone a string that begins and ends with a character
    it does not strip. *)
Lemma strip_kept (chars : str) (c : char) (p : str) :
  existsb (N.eqb c) chars = false ->
  strip chars (c :: p ++ [c]) = c :: p ++ [c].
Proof.
  intros Hc. unfold strip.
  match goal with |- rev (dropwhile ?f _) = _ => set (d := f) in * end.
  assert (Hrev : rev (c :: p ++ [c]) = c :: rev (c :: p)).
  { change (c :: p ++ [c]) with ((c :: p) ++ [c]).
    rewrite rev_app_distr. reflexivity. }
  assert (H1 : dropwhile d (c :: p ++ [c]) = c :: p ++ [c]).
  { cbn [dropwhile]. unfold d at 1. rewrite Hc. reflexivity. }
  rewrite H1.
  assert (H2 : dropwhile d (rev (c :: p ++ [c])) = rev (c :: p ++ [c])).
  { rewrite Hrev. cbn [dropwhile]. unfold d at 1. rewrite Hc.
    reflexivity. }
  rewrite H2. apply rev_involutive.
Qed.

Lemma endswith_inv (s suffix : str) :
  endswith s suffix = true -> exists pre, s = pre ++ suffix.
Proof.
  unfold endswith, str_eqb. intros H.
  apply andb_prop in H. destruct H as [_ H].
  destruct (str_eq_dec _ suffix) as [E|]; [|discriminate H].
  exists (firstn (List.length s - List.length suffix) s).
  rewrite <- E at 2. symmetry. apply firstn_skipn.
Qed.

Lemma init_with_argv (env : Env) (arg0 arg arg' : str)
    (rest rest' : list str) :
  strip (u "'") (strip [34%N] arg) = strip (u "'") (strip [34%N] arg') ->
  init (with_argv env (arg0 :: arg :: rest))
  = init (with_argv env (arg0 :: arg' :: rest')).
Proof.
  intros H. unfold init, _handle_args. cbn [sys_argv with_argv].
  rewrite H. reflexivity.
Qed.

(** X14: quotes around the script given on the command line.  A path in
    double quotes is handled as the bare path.  So is a path in single
    quotes, and one in single quotes inside double quotes, when the bare
    path has no double quote at either end.  Double quotes inside single
    quotes are not undone: what is left ends with a double quote, not
    with [.py], and start-up selects nothing. *)
Theorem quoted_argument (env : Env) (arg0 p : str) (rest : list str) :
  init (with_argv env (arg0 :: (dquote :: p ++ [dquote]) :: rest))
  = init (with_argv env (arg0 :: p :: rest))
  /\ (strip [dquote] p = p ->
      init (with_argv env (arg0 :: (squote :: p ++ [squote]) :: rest))
      = init (with_argv env (arg0 :: p :: rest))
      /\ init (with_argv env
                 (arg0 :: (dquote :: (squote :: p ++ [squote]) ++ [dquote])
                       :: rest))
         = init (with_argv env (arg0 :: p :: rest)))
  /\ current_script
       (init (with_argv env
                (arg0 :: (squote :: (dquote :: p ++ [dquote]) ++ [squote])
                      :: rest)))
     = None.
Proof.
  assert (Hd : existsb (N.eqb dquote) [34%N] = true) by reflexivity.
  assert (Hs : existsb (N.eqb squote) (u "'") = true) by reflexivity.
  assert (Hsd : existsb (N.eqb squote) [34%N] = false) by reflexivity.
  assert (Hds : existsb (N.eqb dquote) (u "'") = false) by reflexivity.
  split; [|split].
  - apply init_with_argv. rewrite (strip_wrapped _ _ p Hd). reflexivity.
  - intros Hbare. change [dquote] with [34%N] in Hbare. split.
    + apply init_with_argv.
      rewrite (strip_kept _ _ p Hsd), (strip_wrapped _ _ p Hs), Hbare.
      reflexivity.
    + apply init_with_argv.
      rewrite (strip_wrapped _ _ _ Hd), (strip_kept _ _ p Hsd),
        (strip_wrapped _ _ p Hs), Hbare.
      reflexivity.
  - unfold init, _handle_args. cbn [sys_argv with_argv].
    rewrite (strip_kept _ _ _ Hsd), (strip_wrapped _ _ _ Hs),
      (strip_kept _ _ p Hds).
    assert (Hend : endswith (dquote :: p ++ [dquote]) (u ".py") = false).
    { destruct (endswith (dquote :: p ++ [dquote]) (u ".py")) eqn:E;
        [|reflexivity].
      exfalso. apply endswith_inv in E. destruct E as [pre E].
      apply (f_equal (@rev char)) in E.
      change (dquote :: p ++ [dquote]) with ((dquote :: p) ++ [dquote])
        in E.
      change (u ".py") with [46%N; 112%N; 121%N] in E.
      rewrite !rev_app_distr in E. simpl in E. discriminate E. }
    rewrite Hend. reflexivity.
Qed.

Lemma quoted_argument_witness :
  strip [dquote] Sample.app_py = Sample.app_py
  /\ current_script
       (init (with_argv Scenario.quiet
                [u "pypacker.py";
                 squote :: Sample.app_py ++ [squote]]))
     = Some Sample.app_py.
Proof.
  assert (H : strip [dquote] Sample.app_py = Sample.app_py)
    by (vm_compute; reflexivity).
  split; [exact H|].
  refine (eq_trans
            (f_equal current_script
               (proj1 (proj1 (proj2 (quoted_argument Scenario.quiet
                  (u "pypacker.py") Sample.app_py [])) H))) _).
  vm_compute. reflexivity.
Defined.

(** ** Failures around the build *)

(** X15: when the subprocess cannot be spawned, or reading its output
    raises, the run logs the header, the lines read so far (stripped, in
    order), and then one line with the exception's message, and reports
    failure; it logs no closing separator and no verdict line, and the
    return code is not looked at. *)
Theorem exception_ends_the_log (env : Env) (t : BuildThread) :
  (forall e, Popen env (popen_args env t) = inl e ->
     run env t
     = map log_signal (header env t ++ [u "执行异常: " ++ message e])
       ++ [finished_signal false])
  /\ (forall p e, Popen env (popen_args env t) = inr p ->
        stdout_raises p = Some e ->
        run env t
        = map log_signal
            (header env t ++ map rstrip (stdout p)
             ++ [u "执行异常: " ++ message e])
          ++ [finished_signal false]).
Proof.
  split.
  - intros e He. rewrite run_eq, He.
    rewrite map_app, <- app_assoc. reflexivity.
  - intros p e Hp He. rewrite run_eq, Hp, He.
    rewrite !map_app, map_map, <- !app_assoc. reflexivity.
Qed.

Lemma exception_ends_the_log_witness :
  log_messages (run Scenario.broken_pipe Scenario.app_thread)
  = header Scenario.broken_pipe Scenario.app_thread
    ++ [u "building"; u "执行异常: decode error"].
Proof.
  rewrite (proj2 (exception_ends_the_log Scenario.broken_pipe
                    Scenario.app_thread) _ _ eq_refl eq_refl).
  rewrite log_messages_logs. reflexivity.
Defined.

Lemma open_folder_fails (env : Env) (path : str) (e : Exception)
    (w : PyPackerWindow) :
  open_error env path = Some e ->
  open_folder env path w = log (u "无法打开: " ++ message e) w.
Proof.
  unfold open_error, open_folder.
  destruct (str_eqb (sys_platform env) (u "win32")).
  - intros ->. reflexivity.
  - destruct (subprocess_run env [u "xdg-open"; path]); [|discriminate].
    intros H. injection H as ->. reflexivity.
Qed.

(** X16: when the output folder cannot be opened after a successful
    build, the exception does not escape: its message is appended to the
    log view after the messages of the run, nothing is recorded as
    opened, and the pack button is enabled as after any build. *)
Theorem open_failure_is_logged (env : Env) (t : BuildThread)
    (w : PyPackerWindow) (script : str) (e : Exception) :
  exited_zero env t ->
  current_script w = Some script ->
  open_error env (output_path env script) = Some e ->
  log_text (deliver_all env true (run env t) w)
  = log_text w ++ log_messages (run env t)
    ++ [u "无法打开: " ++ message e]
  /\ opened (deliver_all env true (run env t) w) = opened w
  /\ pack_btn (deliver_all env true (run env t) w) = true.
Proof.
  intros (p & Hp & Hraise & Hrc) Hcur Herr.
  assert (Hrun : run env t
            = map log_signal (header env t ++ map rstrip (stdout p)
                              ++ [times (u "-") 50; u "打包成功!"])
              ++ [finished_signal true]).
  { rewrite run_eq, Hp, Hraise. unfold verdict. rewrite Hrc.
    rewrite !map_app, map_map, <- !app_assoc. reflexivity. }
  rewrite Hrun, log_messages_logs, deliver_all_app, deliver_logs.
  change (deliver_all env true [finished_signal true] ?x)
    with (on_pack_finished env true true x).
  unfold on_pack_finished. simpl. rewrite Hcur.
  fold (output_path env script).
  rewrite (open_folder_fails env _ e _ Herr).
  do 2 (simpl; rewrite <- ?app_assoc). repeat split; reflexivity.
Qed.

Lemma open_failure_is_logged_witness :
  exited_zero Scenario.no_opener Scenario.app_thread
  /\ open_error Scenario.no_opener
       (output_path Scenario.no_opener Sample.app_py)
     = Some {| message := u "No such file" |}
  /\ opened (deliver_all Scenario.no_opener true
               (run Scenario.no_opener Scenario.app_thread)
               (on_file_dropped Scenario.no_opener Sample.app_py
                  (init Scenario.no_opener)))
     = [].
Proof.
  assert (Hz : exited_zero Scenario.no_opener Scenario.app_thread).
  { eexists. split; [reflexivity|split; reflexivity]. }
  assert (He : open_error Scenario.no_opener
                 (output_path Scenario.no_opener Sample.app_py)
               = Some {| message := u "No such file" |})
    by reflexivity.
  split; [exact Hz|split; [exact He|]].
  exact (proj1 (proj2 (open_failure_is_logged Scenario.no_opener
                         Scenario.app_thread
                         (on_file_dropped Scenario.no_opener Sample.app_py
                            (init Scenario.no_opener))
                         Sample.app_py _ Hz eq_refl He))).
Defined.

(** ** Dropping and browsing *)

(** X17: dropping and browsing treat an existing file that does not end
    with [.py] differently: dropped, it is ignored (nothing is selected,
    logged or enabled); chosen in the file dialog, it becomes the
    selected script and the pack button is enabled. *)
Theorem other_files_only_by_browsing (env : Env) (file_path : str)
    (w : PyPackerWindow) :
  os_path_exists env file_path = true ->
  endswith file_path (u ".py") = false ->
  file_path <> [] ->
  dropEvent env [{| toLocalFile := file_path |}] w = w
  /\ current_script (browse_file env file_path w) = Some file_path
  /\ pack_btn (browse_file env file_path w) = true
  /\ log_text (browse_file env file_path w)
     = log_text w ++ [u "已选择: " ++ file_path].
Proof.
  intros Hex Hpy Hne. split.
  - unfold dropEvent, dropEvent_urls. cbn [toLocalFile].
    rewrite Hpy. reflexivity.
  - unfold browse_file. destruct file_path as [|c r]; [contradiction|].
    cbn [truthy]. rewrite on_file_dropped_accepts.
    + repeat split; reflexivity.
    + rewrite Hex. reflexivity.
Qed.

Lemma other_files_only_by_browsing_witness :
  os_path_exists (Sample.env [u "/home/user/tool"] true (Sample.exits [] 0) 0)
    (u "/home/user/tool") = true
  /\ current_script
       (browse_file
          (Sample.env [u "/home/user/tool"] true (Sample.exits [] 0) 0)
          (u "/home/user/tool")
          (init (Sample.env [u "/home/user/tool"] true
                   (Sample.exits [] 0) 0)))
     = Some (u "/home/user/tool").
Proof.
  split; [reflexivity|].
  refine (proj1 (proj2 (other_files_only_by_browsing
            (Sample.env [u "/home/user/tool"] true (Sample.exits [] 0) 0)
            (u "/home/user/tool") _ eq_refl eq_refl _))).
  vm_compute. discriminate.
Defined.

(** ** Where the build runs *)

(** X18: the subprocess of a build that [start_pack] started runs in the
    directory of the script, and the output folder is the subdirectory
    [输出] of that working directory. *)
Theorem build_runs_in_script_folder (env : Env) (w : PyPackerWindow)
    (t : BuildThread) :
  started (start_pack env w) = started w ++ [Build t] ->
  current_script w = Some (script_path t)
  /\ cwd (popen_args env t)
     = os_path_dirname env (os_path_abspath env (script_path t))
  /\ output_folder t = os_path_join env (cwd (popen_args env t)) (u "输出").
Proof.
  intros H. apply start_pack_started in H.
  destruct H as (script & Hsel & _ & _ & ->).
  split; [exact (script_selected_current w script Hsel)|].
  split; reflexivity.
Qed.

Lemma build_runs_in_script_folder_witness :
  started (start_pack Scenario.quiet Scenario.folder_ready)
  = started Scenario.folder_ready ++ [Build Scenario.folder_thread]
  /\ cwd (popen_args Scenario.quiet Scenario.folder_thread)
     = u "/home/user".
Proof.
  assert (H : started (start_pack Scenario.quiet Scenario.folder_ready)
              = started Scenario.folder_ready
                ++ [Build Scenario.folder_thread])
    by (vm_compute; reflexivity).
  split; [exact H|].
  refine (eq_trans (proj1 (proj2 (build_runs_in_script_folder
                     Scenario.quiet Scenario.folder_ready
                     Scenario.folder_thread H))) _).
  vm_compute. reflexivity.
Defined.

(** ** The remembered thread *)

Lemma step_build_thread (env : Env) (ev : Event) (w : PyPackerWindow) :
  build_thread w = last_build (started w) ->
  build_thread (step env ev w) = last_build (started (step env ev w)).
Proof.
  step_cases env ev w; cbn; intros H; try exact H;
    try (rewrite fold_left_app; first [reflexivity|exact H]).
Qed.

Lemma init_build_thread (env : Env) :
  build_thread (init env) = last_build (started (init env)).
Proof.
  unfold init, _handle_args.
  destruct (sys_argv env) as [|arg0 [|arg args]]; try reflexivity.
  destruct (endswith _ (u ".py") && os_path_exists env _); [|reflexivity].
  unfold start_pack.
  destruct (script_selected _); [|reflexivity].
  cbn [pyinstaller_available set_current_script path_edit_setText
       pack_btn_setEnabled set_pack_btn set_path_edit].
  destruct (_check_pyinstaller env); [|reflexivity].
  cbn [negb]. destruct (os_path_exists env s); reflexivity.
Qed.

(** X19: throughout a session the window remembers, in [build_thread],
    the build thread that was started last, and none before the first
    build; a thread started earlier is no longer referred to once a new
    build starts. *)
Theorem build_thread_is_last_started (env : Env) (evs : list Event) :
  build_thread (exec env evs (init env))
  = last_build (started (exec env evs (init env))).
Proof.
  apply (exec_invariant env
           (fun w => build_thread w = last_build (started w))
           (step_build_thread env)).
  apply init_build_thread.
Qed.

(** ** Once PyInstaller is available *)

Lemma step_available (env : Env) (ev : Event) (w : PyPackerWindow) :
  pyinstaller_available w = true ->
  pyinstaller_available (step env ev w) = true
  /\ exists extra,
       shown (step env ev w) = shown w ++ extra
       /\ ~ In install_warning extra.
Proof.
  step_cases env ev w; cbn; intros Hav; try congruence;
    (split; [first [assumption|reflexivity]|]);
    first
      [ exists []; split; [symmetry; apply app_nil_r|intros []]
      | eexists [_]; split;
        [reflexivity
        |intros [E|[]]; unfold install_warning in E;
         first [discriminate E|vm_compute in E; discriminate E]] ].
Qed.

(** X20: once PyInstaller is available it stays available, and from then
    on no event makes the window show the warning that PyInstaller has
    to be installed first. *)
Theorem no_install_warning_once_available (env : Env) (evs : list Event)
    (w : PyPackerWindow) :
  pyinstaller_available w = true ->
  pyinstaller_available (exec env evs w) = true
  /\ exists extra,
       shown (exec env evs w) = shown w ++ extra
       /\ ~ In install_warning extra.
Proof.
  revert w. induction evs as [|ev evs IH]; intros w Hav.
  - split; [exact Hav|]. exists [].
    split; [symmetry; apply app_nil_r|intros []].
  - change (exec env (ev :: evs) w) with (exec env evs (step env ev w)).
    destruct (step_available env ev w Hav) as (Hav' & e1 & H1 & Hn1).
    destruct (IH (step env ev w) Hav') as (Hav'' & e2 & H2 & Hn2).
    split; [exact Hav''|]. exists (e1 ++ e2). split.
    + rewrite H2, H1, app_assoc. reflexivity.
    + intros Hin. apply in_app_or in Hin. tauto.
Qed.

Lemma no_install_warning_once_available_witness :
  pyinstaller_available (init Scenario.quiet) = true
  /\ pyinstaller_available
       (exec Scenario.quiet [ClickPack; BrowseFile Scenario.missing_py;
                             ClickPack]
          (init Scenario.quiet))
     = true.
Proof.
  assert (H : pyinstaller_available (init Scenario.quiet) = true)
    by reflexivity.
  split; [exact H|].
  exact (proj1 (no_install_warning_once_available Scenario.quiet
                  [ClickPack; BrowseFile Scenario.missing_py; ClickPack]
                  (init Scenario.quiet) H)).
Defined.

(** ** The mode flag of every build of a session *)

Lemma pathlike_not_flag (s : str) : pathlike s -> ~ is_mode_flag s.
Proof.
  intros Hp [E|E]; rewrite E in Hp; destruct Hp as [H|[H|H]];
    vm_compute in H;
    first [discriminate H|destruct H as [H|[H|[]]]; discriminate H].
Qed.

Lemma py_not_flag (s : str) :
  endswith s (u ".py") = true -> ~ is_mode_flag s.
Proof. intros H [E|E]; rewrite E in H; vm_compute in H; discriminate H. Qed.

Lemma outdir_not_flag (s : str) :
  endswith s (u "输出") = true -> ~ is_mode_flag s.
Proof. intros H [E|E]; rewrite E in H; vm_compute in H; discriminate H. Qed.

Lemma start_pack_icon_edit (env : Env) (w : PyPackerWindow) :
  icon_edit (start_pack env w) = icon_edit w.
Proof.
  unfold start_pack.
  destruct (script_selected w); [|reflexivity].
  destruct (pyinstaller_available w); [|reflexivity].
  destruct (os_path_exists env s); reflexivity.
Qed.

Lemma start_pack_flag_free (env : Env) (w : PyPackerWindow) :
  paths_as_usual env -> flag_free w -> flag_free (start_pack env w).
Proof.
  intros [_ Hjoin] (Hscript & Hicon & Hthreads).
  unfold flag_free.
  rewrite (proj1 (start_pack_selection env w)), start_pack_icon_edit.
  split; [exact Hscript|split; [exact Hicon|]].
  intros t Hin.
  destruct (start_pack_started_cases env w) as [H|[t' H]].
  - rewrite H in Hin. apply Hthreads, Hin.
  - rewrite H in Hin. apply in_app_or in Hin.
    destruct Hin as [Hin|[E|[]]]; [apply Hthreads, Hin|].
    injection E as <-. apply start_pack_started in H.
    destruct H as (script & Hsel & _ & _ & ->).
    apply script_selected_current in Hsel.
    split; [exact (Hscript script Hsel)|split].
    + apply outdir_not_flag, Hjoin.
    + cbn. unfold or_None. destruct (truthy (icon_edit w)); [|discriminate].
      intros p E. injection E as <-. exact Hicon.
Qed.

(** An event selects a new script only from a URL ending with [.py] or
    from the file dialog. *)
Lemma step_script (env : Env) (ev : Event) (w : PyPackerWindow) :
  current_script (step env ev w) = current_script w
  \/ exists s,
       current_script (step env ev w) = Some s
       /\ (endswith s (u ".py") = true \/ ev = BrowseFile s).
Proof.
  step_cases env ev w; cbn;
    first
      [ left; first [reflexivity|congruence]
      | right; eexists; split; [reflexivity|];
        first [right; reflexivity
              |left;
               match goal with
               | E : find is_py _ = Some _ |- _ =>
                 apply find_some in E; exact (proj2 E)
               end] ].
Qed.

Lemma Event_eq_ClickPack (ev : Event) : ev = ClickPack \/ ev <> ClickPack.
Proof. destruct ev; first [left; reflexivity|right; discriminate]. Qed.

Lemma step_flag_free (env : Env) (ev : Event) (w : PyPackerWindow) :
  paths_as_usual env ->
  dialog_paths [ev] ->
  flag_free w -> flag_free (step env ev w).
Proof.
  intros Henv Hev Hw.
  assert (Hev' : match ev with
                 | BrowseFile chosen => pathlike chosen
                 | BrowseIcon chosen => pathlike chosen
                 | _ => True
                 end) by (inversion Hev; assumption).
  destruct (Event_eq_ClickPack ev) as [->|Hother].
  - cbn [step]. destruct (pack_btn w); [|exact Hw].
    apply start_pack_flag_free; assumption.
  - destruct Hw as (Hscript & Hicon & Hthreads). split; [|split].
    + intros s Hs.
      destruct (step_script env ev w) as [E|(s' & E & Hwhy)].
      * rewrite E in Hs. apply Hscript, Hs.
      * rewrite E in Hs. injection Hs as <-.
        destruct Hwhy as [Hpy| ->]; [apply py_not_flag, Hpy|].
        apply pathlike_not_flag, Hev'.
    + rewrite step_icon. unfold chosen_icon. cbn.
      destruct ev; try exact Hicon.
      destruct (truthy chosen); [|exact Hicon].
      apply pathlike_not_flag, Hev'.
    + intros t Hin.
      destruct (step_threads env ev w) as [_ [H|[[E _]|[_ [_ H]]]]].
      * rewrite H in Hin. apply Hthreads, Hin.
      * contradiction.
      * rewrite H in Hin. apply in_app_or in Hin.
        destruct Hin as [Hin|[E|[]]]; [apply Hthreads, Hin|discriminate E].
Qed.

Lemma init_flag_free (env : Env) :
  paths_as_usual env -> flag_free (init env).
Proof.
  intros Henv.
  assert (Hblank : forall w,
            current_script w = None -> icon_edit w = [] ->
            started w = [] -> flag_free w).
  { intros w Hs Hi Ht. unfold flag_free. rewrite Hs, Hi, Ht.
    split; [discriminate|split; [|intros t []]].
    intros [E|E]; discriminate E. }
  unfold init, _handle_args.
  destruct (sys_argv env) as [|arg0 [|arg args]];
    try (apply Hblank; reflexivity).
  destruct (endswith _ (u ".py") && os_path_exists env _) eqn:Hok;
    [|apply Hblank; reflexivity].
  apply andb_prop in Hok. destruct Hok as [Hpy _].
  apply start_pack_flag_free; [exact Henv|].
  split; [|split].
  - intros s Hs. cbn in Hs. injection Hs as <-. apply py_not_flag, Hpy.
  - cbn. intros [E|E]; discriminate E.
  - intros t [].
Qed.

Lemma exec_flag_free (env : Env) (evs : list Event) (w : PyPackerWindow) :
  paths_as_usual env -> dialog_paths evs ->
  flag_free w -> flag_free (exec env evs w).
Proof.
  intros Henv. revert w.
  induction evs as [|ev evs IH]; intros w Hevs Hw; [exact Hw|].
  change (exec env (ev :: evs) w) with (exec env evs (step env ev w)).
  inversion Hevs as [|? ? Hev Hrest]; subst.
  apply IH; [exact Hrest|].
  apply step_flag_free; [exact Henv| |exact Hw].
  constructor; [exact Hev|constructor].
Qed.

(** C8: every command line that the program builds holds exactly one of
    the two mode flags, whatever the check boxes show.  For every build
    thread started in a session (from start-up, over any events, the
    file dialogs returning nothing or absolute paths), the list that
    [run] builds holds [-F] and not [-D] when onefile is set, [-D] and
    not [-F] otherwise, and the flag sits at index 6. *)
Theorem one_mode_flag_per_build (env : Env) (evs : list Event)
    (t : BuildThread) :
  paths_as_usual env ->
  dialog_paths evs ->
  In (Build t) (started (exec env evs (init env))) ->
  one_mode_flag (command env t)
  /\ (if onefile t
      then In (u "-F") (command env t) /\ ~ In (u "-D") (command env t)
      else In (u "-D") (command env t) /\ ~ In (u "-F") (command env t))
  /\ nth_error (command env t) 6
     = Some (if onefile t then u "-F" else u "-D").
Proof.
  intros Henv Hevs Hin.
  destruct (exec_flag_free env evs (init env) Henv Hevs
              (init_flag_free env Henv)) as (_ & _ & Hthreads).
  destruct (Hthreads t Hin) as (Hscript & Hout & Hicon).
  destruct (mode_flag_slot env t) as [Hslot Hone].
  assert (Hexe : ~ is_mode_flag (sys_executable env))
    by (apply pathlike_not_flag, Henv).
  specialize (Hone Hexe Hout Hscript Hicon).
  split; [exact Hone|split; [|exact Hslot]].
  assert (Hat : In (if onefile t then u "-F" else u "-D") (command env t))
    by (apply nth_error_In with (n := 6%nat); exact Hslot).
  destruct (onefile t); destruct Hone as [[HF HD]|[HD HF]];
    first [split; assumption|contradiction].
Qed.

Lemma endswith_app (a b : str) : endswith (a ++ b) b = true.
Proof.
  unfold endswith. rewrite length_app.
  replace (List.length a + List.length b - List.length b)%nat
    with (List.length a) by lia.
  rewrite skipn_app, skipn_all, Nat.sub_diag. simpl.
  unfold str_eqb. destruct (str_eq_dec b b); [|contradiction].
  rewrite andb_true_r. apply Nat.leb_le. lia.
Qed.

Lemma sample_paths_as_usual (files : list str) (pyinstaller : bool)
    (proc : Exception + Process) (pip_rc : Z) :
  paths_as_usual (Sample.env files pyinstaller proc pip_rc).
Proof.
  split.
  - right. left. vm_compute. left. reflexivity.
  - intros d. cbn [os_path_join Sample.env]. unfold Sample.join.
    change (Sample.is_abs (u "输出")) with false. cbv iota.
    destruct (negb (truthy d) || endswith d [Sample.slash]).
    + apply endswith_app.
    + change (d ++ Sample.slash :: u "输出")
        with (d ++ [Sample.slash] ++ u "输出").
      rewrite app_assoc. apply endswith_app.
Qed.

Lemma one_mode_flag_per_build_witness :
  paths_as_usual Scenario.quiet
  /\ dialog_paths [BrowseFile Sample.app_py; SetOnefile false; ClickPack]
  /\ In (Build Scenario.folder_thread)
        (started (exec Scenario.quiet
                    [BrowseFile Sample.app_py; SetOnefile false; ClickPack]
                    (init Scenario.quiet)))
  /\ In (u "-D") (command Scenario.quiet Scenario.folder_thread)
  /\ ~ In (u "-F") (command Scenario.quiet Scenario.folder_thread).
Proof.
  assert (He : paths_as_usual Scenario.quiet)
    by apply sample_paths_as_usual.
  assert (Hd : dialog_paths
                 [BrowseFile Sample.app_py; SetOnefile false; ClickPack]).
  { constructor; [right; left; vm_compute; left; reflexivity|].
    constructor; [exact I|]. constructor; [exact I|constructor]. }
  assert (Hin : In (Build Scenario.folder_thread)
                  (started (exec Scenario.quiet
                     [BrowseFile Sample.app_py; SetOnefile false; ClickPack]
                     (init Scenario.quiet))))
    by (vm_compute; left; reflexivity).
  split; [exact He|split; [exact Hd|split; [exact Hin|]]].
  exact (proj1 (proj2 (one_mode_flag_per_build Scenario.quiet
           [BrowseFile Sample.app_py; SetOnefile false; ClickPack]
           Scenario.folder_thread He Hd Hin))).
Defined.
